(** * prompter: the Apps Script back end (backend.js)

    A shallow embedding of the text-to-document conversion and of the
    output dispatcher of [backend.js], and the properties the specification
    states about them.

    JavaScript strings are sequences of UTF-16 code units; they are modelled
    as lists of code units ([N]).  Calls to the Apps Script services
    (SpreadsheetApp, UrlFetchApp, DocumentApp, DriveApp, MailApp, Logger) are
    modelled by a trace of events together with a [World] that fixes how each
    service answers.  The submit handler of the page that calls the web app
    is modelled as a function on the properties of the page it writes. *)

From Stdlib Require Import List NArith Bool String Ascii Lia QArith.
From Stdlib Require Import DecimalString.
Import ListNotations.

Local Open Scope N_scope.
Local Open Scope list_scope.

(** ** JavaScript strings *)

Module JS.

Definition jsstring := list N.

(** A literal: the code units of an ASCII string. *)
Definition u (s : string) : jsstring := map N_of_ascii (list_ascii_of_string s).

Definition NL : N := 10.      (* "\n" *)
Definition QUOT : N := 34.    (* the double quote *)
Definition AMP : N := 38.     (* & *)
Definition APOS : N := 39.    (* ' *)
Definition DASH : N := 45.    (* - *)
Definition DOT : N := 46.     (* . *)
Definition COLON : N := 58.   (* : *)
Definition LT : N := 60.      (* < *)
Definition GT : N := 62.      (* > *)

Definition str_eqb (a b : jsstring) : bool :=
  if list_eq_dec N.eq_dec a b then true else false.

(** [\d] *)
Definition is_digit (c : N) : bool := (48 <=? c) && (c <=? 57).

(** White space and line terminators of ECMAScript: what [trim] strips and
    what [\s] matches. *)
Definition is_space (c : N) : bool :=
  (c =? 9) || (c =? 10) || (c =? 11) || (c =? 12) || (c =? 13) || (c =? 32)
  || (c =? 160) || (c =? 5760) || ((8192 <=? c) && (c <=? 8202))
  || (c =? 8232) || (c =? 8233) || (c =? 8239) || (c =? 8287)
  || (c =? 12288) || (c =? 65279).

Fixpoint dropWhile (p : N -> bool) (s : jsstring) : jsstring :=
  match s with
  | [] => []
  | c :: r => if p c then dropWhile p r else s
  end.

Fixpoint takeWhile (p : N -> bool) (s : jsstring) : jsstring :=
  match s with
  | [] => []
  | c :: r => if p c then c :: takeWhile p r else []
  end.

Definition trimStart (s : jsstring) : jsstring := dropWhile is_space s.
Definition trimEnd (s : jsstring) : jsstring := rev (dropWhile is_space (rev s)).

(** [s.trim()] *)
Definition trim (s : jsstring) : jsstring := trimEnd (trimStart s).

(** [s.split('\n')]: never empty, [''.split('\n')] is [['']]. *)
Fixpoint split_nl (s : jsstring) : list jsstring :=
  match s with
  | [] => [[]]
  | c :: r =>
      if c =? NL then [] :: split_nl r
      else match split_nl r with
           | l :: ls => (c :: l) :: ls
           | [] => [[c]]
           end
  end.

(** [s.endsWith(c)] for a one-character [c]. *)
Definition endsWith (s : jsstring) (c : N) : bool :=
  match rev s with
  | x :: _ => x =? c
  | [] => false
  end.

(** [s.startsWith(c)] for a one-character [c]. *)
Definition startsWith (s : jsstring) (c : N) : bool :=
  match s with
  | x :: _ => x =? c
  | [] => false
  end.

(** [s.substring(1)] *)
Definition substring1 (s : jsstring) : jsstring := tl s.

(** The match of [/^\d+\./] at the start of [s]: what follows the marker.
    [\d+] is greedy and a digit is never a period, so the only candidate is
    the whole leading run of digits. *)
Definition match_marker (s : jsstring) : option jsstring :=
  match takeWhile is_digit s, dropWhile is_digit s with
  | _ :: _, c :: rest => if c =? DOT then Some rest else None
  | _, _ => None
  end.

(** [/^\d+\./.test(s)] *)
Definition test_marker (s : jsstring) : bool :=
  match match_marker s with Some _ => true | None => false end.

(** [s.replace(/^\d+\.\s*/, '')] *)
Definition strip_marker (s : jsstring) : jsstring :=
  match match_marker s with
  | Some rest => dropWhile is_space rest
  | None => s
  end.

(** [s.replace(/c/g, by)] for a one-character pattern [c]. *)
Definition replace_char (c : N) (by_ : jsstring) (s : jsstring) : jsstring :=
  flat_map (fun x => if x =? c then by_ else [x]) s.

(** [s.replaceAll("\n", "")] *)
Definition remove_nl (s : jsstring) : jsstring :=
  replace_char NL [] s.

End JS.
Import JS.

(** ** escapeHtml *)

Definition escapeHtml (text : jsstring) : jsstring :=
  replace_char APOS (u "&#039;")
    (replace_char QUOT (u "&quot;")
      (replace_char GT (u "&gt;")
        (replace_char LT (u "&lt;")
          (replace_char AMP (u "&amp;") text)))).

(** ** convertMarkdownToHTML *)

(** The three values [listType] takes: [''], ['ol'], ['ul']. *)
Inductive ListType := LT_none | LT_ol | LT_ul.

Definition listType_eqb (a b : ListType) : bool :=
  match a, b with
  | LT_none, LT_none | LT_ol, LT_ol | LT_ul, LT_ul => true
  | _, _ => false
  end.

(** [listType === 'ol' ? '</ol>' : '</ul>'] *)
Definition closing (listType : ListType) : jsstring :=
  if listType_eqb listType LT_ol then u "</ol>" else u "</ul>".

(** The variables the loop of [convertMarkdownToHTML] updates. *)
Record HtmlState := mkHtmlState {
  html : jsstring;
  inList : bool;
  listType : ListType
}.

(** The body of [lines.forEach(line => ...)]. *)
Definition html_step (st : HtmlState) (line0 : jsstring) : HtmlState :=
  let line := trim line0 in
  let html := html st in
  let inList := inList st in
  let listType := listType st in
  if str_eqb line [] then
    if inList then mkHtmlState (html ++ closing listType) false listType
    else st
  else if endsWith line COLON then
    let html := if inList then html ++ closing listType else html in
    mkHtmlState (html ++ u "<h2>" ++ escapeHtml line ++ u "</h2>" ++ [NL])
                false listType
  else if test_marker line then
    let html :=
      if negb inList || negb (listType_eqb listType LT_ol) then
        (if inList then html ++ closing listType else html) ++ u "<ol>" ++ [NL]
      else html in
    mkHtmlState
      (html ++ u "<li>" ++ escapeHtml (strip_marker line) ++ u "</li>" ++ [NL])
      true LT_ol
  else if startsWith line DASH then
    let html :=
      if negb inList || negb (listType_eqb listType LT_ul) then
        (if inList then html ++ closing listType else html) ++ u "<ul>" ++ [NL]
      else html in
    mkHtmlState
      (html ++ u "<li>" ++ escapeHtml (trim (substring1 line)) ++ u "</li>" ++ [NL])
      true LT_ul
  else
    let html := if inList then html ++ closing listType else html in
    mkHtmlState (html ++ u "<p>" ++ escapeHtml line ++ u "</p>" ++ [NL])
                false listType.

(** The template literal that opens the page, up to the first
    interpolation. *)
Definition html_title_open : jsstring :=
  [NL] ++ u "<div class=" ++ [QUOT] ++ u "agent-response" ++ [QUOT] ++ u ">" ++ [NL]
  ++ u "    <h1>".

(** The template literal that opens the page. *)
Definition html_header (agentName extraContext : jsstring) : jsstring :=
  html_title_open ++ agentName ++ u " - " ++ extraContext ++ u "</h1>" ++ [NL].

(** The template literal that closes the page; [now] is
    [new Date().toLocaleString()]. *)
Definition html_footer (now : jsstring) : jsstring :=
  [NL] ++ u "    <div class=" ++ [QUOT] ++ u "footer" ++ [QUOT] ++ u ">" ++ [NL]
  ++ u "        <p>Generated by Strategic Advisor System</p>" ++ [NL]
  ++ u "        <p>" ++ now ++ u "</p>" ++ [NL]
  ++ u "    </div>" ++ [NL]
  ++ u "</div>" ++ [NL].

Definition convertMarkdownToHTML
  (now : jsstring) (text agentName extraContext : jsstring) : jsstring :=
  let lines := split_nl text in
  let st := fold_left html_step lines
              (mkHtmlState (html_header agentName extraContext) false LT_none) in
  let html := if inList st then html st ++ closing (listType st) else html st in
  html ++ html_footer now.

(** ** addStyledContent: the Google Docs body *)

Inductive ParagraphHeading := NORMAL | HEADING1 | HEADING2.
Inductive GlyphType := NUMBER | BULLET.

(** The setters chained on an appended element, in call order. *)
Inductive Setter :=
| setHeading (h : ParagraphHeading)
| setBold (b : bool)
| setSpacingBefore (pt : N)
| setSpacingAfter (pt : N)
| setGlyphType (g : GlyphType)
| setFontSize (pt : N)
| setLineSpacing (m : Q).

(** What [appendParagraph] and [appendListItem] add to a body. *)
Inductive Element :=
| DocParagraph (text : jsstring) (style : list Setter)
| DocListItem (text : jsstring) (style : list Setter).

Definition Body := list Element.

(** The body of [lines.forEach(line => ...)] in [addStyledContent]. *)
Definition doc_step (body : Body) (line0 : jsstring) : Body :=
  let line := trim line0 in
  if str_eqb line [] then body
  else if endsWith line COLON then
    body ++ [DocParagraph line
               [setHeading HEADING2; setBold true;
                setSpacingBefore 16; setSpacingAfter 6]]
  else if test_marker line then
    body ++ [DocListItem line [setGlyphType NUMBER; setFontSize 11]]
  else if startsWith line DASH then
    body ++ [DocListItem (trim (substring1 line))
               [setGlyphType BULLET; setFontSize 11]]
  else
    body ++ [DocParagraph line
               [setFontSize 11; setLineSpacing (14 # 10)%Q; setSpacingAfter 8]].

Definition addStyledContent (body : Body) (text : jsstring) : Body :=
  fold_left doc_step (split_nl text) body.

(** ** The line kinds and blocks of the specification *)

Inductive ListKind := Ordered | Unordered.

Definition ListKind_eqb (a b : ListKind) : bool :=
  match a, b with
  | Ordered, Ordered | Unordered, Unordered => true
  | _, _ => false
  end.

Inductive LineKind :=
| Blank
| Heading (text : jsstring)
| ListItem (ordinal : ListKind) (text : jsstring)
| Paragraph (text : jsstring).

(** The branch the [if]/[else if] chain of [convertMarkdownToHTML] takes on a
    trimmed line, with the text it hands to [escapeHtml]. *)
Definition classify (line : jsstring) : LineKind :=
  if str_eqb line [] then Blank
  else if endsWith line COLON then Heading line
  else if test_marker line then ListItem Ordered (strip_marker line)
  else if startsWith line DASH then ListItem Unordered (trim (substring1 line))
  else Paragraph line.

(** The classified lines of a text, as both loops see them. *)
Definition kinds (text : jsstring) : list LineKind :=
  map (fun line => classify (trim line)) (split_nl text).

Inductive Block :=
| HeadingBlock (text : jsstring)
| ListBlock (kind : ListKind) (items : list jsstring)
| ParagraphBlock (text : jsstring).

(** Is the first line of [ks] a list item of kind [k]? *)
Definition next_is_item (k : ListKind) (ks : list LineKind) : bool :=
  match ks with
  | ListItem k' _ :: _ => ListKind_eqb k k'
  | _ => false
  end.

(** The specification's reading of a classified text as blocks: a list block
    is a maximal run of consecutive items of one kind; a blank line gives no
    block; a heading or a paragraph gives its own block. *)
Inductive Renders : list LineKind -> list Block -> Prop :=
| Renders_nil : Renders [] []
| Renders_blank ks bs :
    Renders ks bs -> Renders (Blank :: ks) bs
| Renders_heading t ks bs :
    Renders ks bs -> Renders (Heading t :: ks) (HeadingBlock t :: bs)
| Renders_paragraph t ks bs :
    Renders ks bs -> Renders (Paragraph t :: ks) (ParagraphBlock t :: bs)
| Renders_list k t items ks bs :
    next_is_item k ks = false ->
    Renders ks bs ->
    Renders (ListItem k t :: map (ListItem k) items ++ ks)
            (ListBlock k (t :: items) :: bs).

(** The blocks of a classified text, computed from the back: an item joins
    the block of the item that follows it when the kinds agree. *)
Fixpoint blocks_of (ks : list LineKind) : list Block :=
  match ks with
  | [] => []
  | Blank :: r => blocks_of r
  | Heading t :: r => HeadingBlock t :: blocks_of r
  | Paragraph t :: r => ParagraphBlock t :: blocks_of r
  | ListItem k t :: r =>
      if next_is_item k r then
        match blocks_of r with
        | ListBlock _ items :: bs => ListBlock k (t :: items) :: bs
        | bs => ListBlock k [t] :: bs
        end
      else ListBlock k [t] :: blocks_of r
  end.

Definition list_tag (k : ListKind) : ListType :=
  match k with Ordered => LT_ol | Unordered => LT_ul end.

Definition opening (k : ListKind) : jsstring :=
  match k with Ordered => u "<ol>" | Unordered => u "<ul>" end ++ [NL].

Definition html_of_item (esc : jsstring -> jsstring) (t : jsstring) : jsstring :=
  u "<li>" ++ esc t ++ u "</li>" ++ [NL].

(** The markup of one block; [esc] is applied to every text value. *)
Definition html_of_block (esc : jsstring -> jsstring) (b : Block) : jsstring :=
  match b with
  | HeadingBlock t => u "<h2>" ++ esc t ++ u "</h2>" ++ [NL]
  | ListBlock k items =>
      opening k ++ List.concat (map (html_of_item esc) items) ++ closing (list_tag k)
  | ParagraphBlock t => u "<p>" ++ esc t ++ u "</p>" ++ [NL]
  end.

Definition html_of_blocks (esc : jsstring -> jsstring) (bs : list Block) : jsstring :=
  List.concat (map (html_of_block esc) bs).

(** The five characters the specification escapes, one character at a time. *)
Definition entity (c : N) : jsstring :=
  if c =? AMP then u "&amp;"
  else if c =? LT then u "&lt;"
  else if c =? GT then u "&gt;"
  else if c =? QUOT then u "&quot;"
  else if c =? APOS then u "&#039;"
  else [c].

Definition escape_entities (text : jsstring) : jsstring := flat_map entity text.

(** ** The Apps Script services *)

(** A call either returns or throws an [Error] with a message. *)
Inductive Result (A : Type) :=
| Ret (a : A)
| Throw (message : jsstring).
Arguments Ret {A} a.
Arguments Throw {A} message.

(** A created Google Doc: name, page margins (top, bottom, left, right) and
    body. *)
Record Doc := mkDoc {
  docName : jsstring;
  margins : N * N * N * N;
  docBody : Body
}.

(** The argument of [MailApp.sendEmail]; an attachment is the PDF made of a
    document, under its file name. *)
Record Mail := mkMail {
  to : jsstring;
  subject : jsstring;
  body : option jsstring;
  htmlBody : option jsstring;
  attachments : list (jsstring * Doc)
}.

(** The calls that leave the script, in the order they are made. *)
Inductive Event :=
| SheetRead                      (* getSheetByName('GTAgents') ... getValues() *)
| PropertyRead                   (* getProperty('OPENROUTER_API_KEY') *)
| Fetch (prompt : jsstring)      (* UrlFetchApp.fetch, with the user message *)
| DocCreate (name : jsstring)    (* DocumentApp.create *)
| DocSaveAndClose (d : Doc)      (* doc.saveAndClose *)
| PdfConvert (name : jsstring)   (* getFileById ... getAs('application/pdf') *)
| SendEmail (m : Mail)           (* MailApp.sendEmail *)
| SetTrashed                     (* docFile.setTrashed(true) *)
| Log (message : jsstring).      (* Logger.log *)

(** A sheet row as [getValues] returns it: the range is rectangular with at
    least one column, so a row is its first cell and the remaining cells.
    Cells hold text. *)
Definition Row := (jsstring * list jsstring)%type.

(** How the services answer during one request.  For a call that returns
    nothing of interest, [None] says it succeeds and [Some m] that it throws
    an error with message [m]. *)
Record World := mkWorld {
  GTAgents : option (list Row);       (* [None]: there is no such sheet *)
  OPENROUTER_API_KEY : option jsstring;
  (* fetch, JSON.parse and result.choices[0].message.content; the content
     of an answer is taken to be a string *)
  chat_completion : jsstring -> Result jsstring;
  clock : jsstring;                   (* new Date().toLocaleString() *)
  newDocId : jsstring;                (* doc.getId() *)
  docCreate : option jsstring;
  docSave : option jsstring;
  pdfConvert : option jsstring;
  mailSend : option jsstring;
  trash : option jsstring
}.

(** Case mapping on the ASCII letters. *)
Definition ascii_lower (c : N) : N :=
  if (65 <=? c) && (c <=? 90) then c + 32 else c.
Definition ascii_upper (c : N) : N :=
  if (97 <=? c) && (c <=? 122) then c - 32 else c.

Definition is_ascii (s : jsstring) : Prop := Forall (fun c => c < 128) s.

(** String case mapping of the JavaScript engine.  It follows the Unicode
    tables, which are not part of this development; on ASCII strings it maps
    the ASCII letters and nothing else. *)
Class CaseMapping := {
  toLowerCase : jsstring -> jsstring;
  toUpperCase : jsstring -> jsstring;
  toLowerCase_ascii : forall s, is_ascii s -> toLowerCase s = map ascii_lower s;
  toUpperCase_ascii : forall s, is_ascii s -> toUpperCase s = map ascii_upper s
}.

(** ** Computations with a trace and exceptions *)

Definition M (A : Type) : Type := (list Event * Result A)%type.

Definition ret {A} (a : A) : M A := ([], Ret a).
Definition throw {A} (message : jsstring) : M A := ([], Throw message).

Definition bind {A B} (m : M A) (f : A -> M B) : M B :=
  match m with
  | (t, Ret a) => let (t', r) := f a in (t ++ t', r)
  | (t, Throw e) => (t, Throw e)
  end.

(** [try { m } catch (e) { h e.message }] *)
Definition tryCatch {A} (m : M A) (h : jsstring -> M A) : M A :=
  match m with
  | (t, Throw e) => let (t', r) := h e in (t ++ t', r)
  | ok => ok
  end.

(** A service call with no result. *)
Definition call (ev : Event) (answer : option jsstring) : M unit :=
  ([ev], match answer with None => Ret tt | Some e => Throw e end).

Definition log (message : jsstring) : M unit := ([Log message], Ret tt).

Declare Scope js_scope.
Delimit Scope js_scope with js.
Notation "x <- m ;; k" := (bind m (fun x => k))
  (at level 61, m at next level, right associativity) : js_scope.
Notation "m ;; k" := (bind m (fun _ => k))
  (at level 61, right associativity) : js_scope.
Local Open Scope js_scope.

Definition trace {A} (m : M A) : list Event := fst m.
Definition outcome {A} (m : M A) : Result A := snd m.

(** ** The responses *)

Record Response := mkResponse {
  status : jsstring;
  message : jsstring;
  outputFormat : option jsstring;
  output : option jsstring;
  extraContext : option jsstring
}.

Definition error_response (msg : jsstring) : Response :=
  mkResponse (u "error") msg None None None.

Definition recipient : jsstring := u "gauravtalele2025@gmail.com".

(** ** handlePDFOutput *)

(** The document [handlePDFOutput] composes.  A new document's body holds one
    empty paragraph; the title is inserted before it. *)
Definition pdf_document (agentName advisorText extraContext : jsstring) : Doc :=
  let body := [DocParagraph [] []] in
  let body := DocParagraph (agentName ++ u " - " ++ extraContext)
                [setHeading HEADING1; setBold true] :: body in
  let body := body ++ [DocParagraph (u " ") []] in
  let body := body ++ [DocParagraph (u " ") []] in
  mkDoc (agentName ++ u "-Output") (36, 36, 36, 36)
        (addStyledContent body advisorText).

Definition handlePDFOutput (w : World)
  (agentName advisorText extraContext : jsstring) : M Response :=
  call (DocCreate (agentName ++ u "-Output")) (docCreate w) ;;
  let doc := pdf_document agentName advisorText extraContext in
  call (DocSaveAndClose doc) (docSave w) ;;
  let pdfName := agentName ++ u "-Output.pdf" in
  call (PdfConvert pdfName) (pdfConvert w) ;;
  call (SendEmail
          (mkMail recipient (agentName ++ u " - Output")
             (Some (u "Attached is the strategic report for " ++ agentName ++ u "."))
             None [(pdfName, doc)]))
       (mailSend w) ;;
  tryCatch
    (call SetTrashed (trash w) ;;
     log (u "Cleaned up temporary Google Doc: " ++ newDocId w))
    (fun e => log (u "Warning: Could not delete temporary doc: " ++ e)) ;;
  log (u "PDF report sent successfully for " ++ agentName) ;;
  ret (mkResponse (u "success") (u "PDF report sent for " ++ agentName)
         (Some (u "PDF")) None (Some extraContext)).

(** ** handleHTMLOutput, handleEmailOutput *)

Definition handleHTMLOutput (w : World)
  (agentName advisorText extraContext : jsstring) : M Response :=
  let htmlContent := convertMarkdownToHTML (clock w) advisorText agentName extraContext in
  log (u "HTML successfully generated for " ++ agentName) ;;
  ret (mkResponse (u "success") (u "HTML successfully generated for " ++ agentName)
         (Some (u "HTML")) (Some (remove_nl htmlContent)) (Some extraContext)).

Definition handleEmailOutput (w : World)
  (agentName advisorText extraContext : jsstring) : M Response :=
  let htmlContent := convertMarkdownToHTML (clock w) advisorText agentName extraContext in
  call (SendEmail
          (mkMail recipient (agentName ++ u " - Output") None (Some htmlContent) []))
       (mailSend w) ;;
  log (u "HTML email sent successfully for " ++ agentName) ;;
  ret (mkResponse (u "success") (u "HTML email sent for " ++ agentName)
         (Some (u "EMAIL")) None (Some extraContext)).

(** ** generateAndSendOutput *)

(** [!s] for a value that is a string, [null] or [undefined]. *)
Definition falsy (s : option jsstring) : bool :=
  match s with
  | None => true
  | Some t => str_eqb t []
  end.

Definition generateAndSendOutput (w : World)
  (agentName fullPrompt outputFormat extraContext : jsstring) : M Response :=
  call PropertyRead None ;;
  if falsy (OPENROUTER_API_KEY w)
  then throw (u "Missing OPENROUTER_API_KEY in Script Properties")
  else
    tryCatch
      (advisorText <- ([Fetch fullPrompt], chat_completion w fullPrompt) ;;
       if str_eqb outputFormat (u "PDF")
       then handlePDFOutput w agentName advisorText extraContext
       else if str_eqb outputFormat (u "EMAIL")
       then handleEmailOutput w agentName advisorText extraContext
       else if str_eqb outputFormat (u "HTML")
       then handleHTMLOutput w agentName advisorText extraContext
       else throw (u "Invalid output format"))
      (fun e =>
         log (u "Error for " ++ agentName ++ u ": " ++ e) ;;
         throw e).

(** ** runAgent *)

(** The test of the lookup loop:
    [data[i][0].toString().trim().toLowerCase() === agentName.toLowerCase()]. *)
Definition row_matches `{CaseMapping} (agentName : jsstring) (row : Row) : bool :=
  str_eqb (toLowerCase (trim (fst row))) (toLowerCase agentName).

(** [basePrompt] after the loop: [data[i][1]] of the first row after the
    header that passes the test; [None] stands for [null] (no such row) and
    for [undefined] (the sheet has one column). *)
Definition lookup_basePrompt `{CaseMapping}
  (data : list Row) (agentName : jsstring) : option jsstring :=
  match find (row_matches agentName) (tl data) with
  | Some row => hd_error (snd row)
  | None => None
  end.

Definition not_found (agentName : jsstring) : jsstring :=
  u "Agent " ++ [QUOT] ++ agentName ++ [QUOT] ++ u " not found in sheet".

Definition runAgent `{CaseMapping} (w : World)
  (agentName extraContext outputFormat : jsstring) : M Response :=
  data <- ([SheetRead],
           match GTAgents w with
           | Some rows => Ret rows
           | None => Throw (u "Cannot read properties of null (reading 'getDataRange')")
           end) ;;
  let basePrompt := lookup_basePrompt data agentName in
  match basePrompt with
  | Some p =>
      if falsy basePrompt then throw (not_found agentName)
      else
        let finalPrompt := p ++ [NL; NL] ++ extraContext in
        generateAndSendOutput w agentName finalPrompt outputFormat extraContext
  | None => throw (not_found agentName)
  end.

(** ** doGet *)

(** [e.parameter]: each query parameter is a string or is absent. *)
Record Request := mkRequest {
  agentname : option jsstring;
  context : option jsstring;
  outputFormatParam : option jsstring
}.

(** [x || dflt] *)
Definition or_default (x : option jsstring) (dflt : jsstring) : jsstring :=
  match x with
  | Some s => if falsy x then dflt else s
  | None => dflt
  end.

Definition formats : list jsstring := [u "PDF"; u "EMAIL"; u "HTML"].

(** [formats.includes(s)] *)
Definition includes (l : list jsstring) (s : jsstring) : bool :=
  existsb (str_eqb s) l.

(** The object [doGet] serialises with [JSON.stringify] into its text output,
    with the calls made on the way. *)
Definition doGet `{CaseMapping} (w : World) (e : Request) : M Response :=
  tryCatch
    (let agentName := agentname e in
     let extraContext := or_default (context e) [] in
     let outputFormat := toUpperCase (or_default (outputFormatParam e) (u "PDF")) in
     match agentName with
     | Some name =>
         if falsy agentName
         then ret (error_response (u "Missing agentname parameter"))
         else if negb (includes formats outputFormat)
         then ret (error_response
                     (u "Invalid outputFormat. Must be PDF, HTML, or EMAIL"))
         else runAgent w name extraContext outputFormat
     | None => ret (error_response (u "Missing agentname parameter"))
     end)
    (fun err => ret (error_response err)).

(** A case mapping that touches the ASCII letters only, for running the
    model on concrete input. *)
Definition ascii_case : CaseMapping :=
  {| toLowerCase := map ascii_lower;
     toUpperCase := map ascii_upper;
     toLowerCase_ascii := fun s _ => eq_refl;
     toUpperCase_ascii := fun s _ => eq_refl |}.

(** ** The loop of convertMarkdownToHTML, line kind by line kind *)

(** What one line of kind [k] appends to [html], and the values of [inList]
    and [listType] after it. *)
Definition html_out (inList : bool) (listType : ListType) (k : LineKind)
  : jsstring * bool * ListType :=
  let close := if inList then closing listType else [] in
  match k with
  | Blank => (close, false, listType)
  | Heading t => (close ++ u "<h2>" ++ escapeHtml t ++ u "</h2>" ++ [NL], false, listType)
  | ListItem k t =>
      ((if negb inList || negb (listType_eqb listType (list_tag k))
        then close ++ opening k else [])
       ++ html_of_item escapeHtml t, true, list_tag k)
  | Paragraph t => (close ++ u "<p>" ++ escapeHtml t ++ u "</p>" ++ [NL], false, listType)
  end.

(** Everything the loop and the closing test after it append for the lines
    [ks], started with the given [inList] and [listType]. *)
Fixpoint html_run (inList : bool) (listType : ListType) (ks : list LineKind)
  : jsstring :=
  match ks with
  | [] => if inList then closing listType else []
  | k :: r =>
      let '(o, i, t) := html_out inList listType k in
      o ++ html_run i t r
  end.

(** The markup of a list block whose first item is already written. *)
Definition rest_of_list (k : ListKind) (ks : list LineKind) : jsstring :=
  if next_is_item k ks then
    match blocks_of ks with
    | ListBlock _ items :: bs =>
        List.concat (map (html_of_item escapeHtml) items)
        ++ closing (list_tag k) ++ html_of_blocks escapeHtml bs
    | _ => []
    end
  else closing (list_tag k) ++ html_of_blocks escapeHtml (blocks_of ks).

(** The page with every text value escaped one character at a time. *)
Definition escaped_page (now text agentName extraContext : jsstring) : jsstring :=
  html_header agentName extraContext
  ++ html_of_blocks escape_entities (blocks_of (kinds text))
  ++ html_footer now.

(** ** A sample deployment *)

Definition sample_rows : list Row :=
  [(u "Agent", [u "Prompt"]); (u "SA", [u "Advise on:"])].

Definition sample_text : jsstring :=
  u "Risks:" ++ [NL] ++ u "- slip" ++ [NL] ++ u "- burnout" ++ [NL] ++ [NL]
  ++ u "Next steps:" ++ [NL] ++ u "1. replan" ++ [NL] ++ u "2. communicate".

(** A world with the sheet [rows] in which the provider answers
    [sample_text]; conversion to PDF, sending and trashing answer as
    given. *)
Definition sample_world (rows : list Row)
  (convert send trashing : option jsstring) : World :=
  mkWorld (Some rows) (Some (u "sk-test")) (fun _ => Ret sample_text)
          (u "1/1/2026, 9:00:00 AM") (u "doc-1")
          None None convert send trashing.

(** A sheet with two rows for one agent, the second with an empty prompt. *)
Definition duplicate_rows : list Row :=
  [(u "Agent", [u "Prompt"]); (u "SA", [u "Advise on:"]); (u "sa", [[]])].

(** ** Reading documents, blocks and traces *)

(** The text an element of a document body carries. *)
Definition element_text (e : Element) : jsstring :=
  match e with
  | DocParagraph t _ => t
  | DocListItem t _ => t
  end.

(** The text values of a block, in order. *)
Definition block_texts (b : Block) : list jsstring :=
  match b with
  | HeadingBlock t => [t]
  | ListBlock _ items => items
  | ParagraphBlock t => [t]
  end.

(** The text value of a classified line, if it has one. *)
Definition kind_texts (k : LineKind) : list jsstring :=
  match k with
  | Blank => []
  | Heading t => [t]
  | ListItem _ t => [t]
  | Paragraph t => [t]
  end.

Definition is_ordered_item (k : LineKind) : bool :=
  match k with
  | ListItem Ordered _ => true
  | _ => false
  end.

(** The five characters [escapeHtml] replaces. *)
Definition is_special (c : N) : bool :=
  (c =? AMP) || (c =? LT) || (c =? GT) || (c =? QUOT) || (c =? APOS).

(** The emails a trace sends, in order. *)
Definition mails (tr : list Event) : list Mail :=
  flat_map (fun ev => match ev with SendEmail m => [m] | _ => [] end) tr.

(** The prompts a trace sends to the completion provider, in order. *)
Definition prompts (tr : list Event) : list jsstring :=
  flat_map (fun ev => match ev with Fetch p => [p] | _ => [] end) tr.

(** The documents a trace creates, by name. *)
Definition created (tr : list Event) : list jsstring :=
  flat_map (fun ev => match ev with DocCreate n => [n] | _ => [] end) tr.

(** The line [generateAndSendOutput] logs before it rethrows. *)
Definition error_line (agentName e : jsstring) : jsstring :=
  u "Error for " ++ agentName ++ u ": " ++ e.

(** The [switch] of [generateAndSendOutput]. *)
Definition output_switch (w : World)
  (outputFormat agentName advisorText extraContext : jsstring) : M Response :=
  if str_eqb outputFormat (u "PDF")
  then handlePDFOutput w agentName advisorText extraContext
  else if str_eqb outputFormat (u "EMAIL")
  then handleEmailOutput w agentName advisorText extraContext
  else if str_eqb outputFormat (u "HTML")
  then handleHTMLOutput w agentName advisorText extraContext
  else throw (u "Invalid output format").

(** The email of the PDF format. *)
Definition pdf_mail (agentName advisorText extraContext : jsstring) : Mail :=
  mkMail recipient (agentName ++ u " - Output")
    (Some (u "Attached is the strategic report for " ++ agentName ++ u "."))
    None
    [(agentName ++ u "-Output.pdf",
      pdf_document agentName advisorText extraContext)].

(** The email of the EMAIL format. *)
Definition html_mail (w : World) (agentName advisorText extraContext : jsstring)
  : Mail :=
  mkMail recipient (agentName ++ u " - Output") None
    (Some (convertMarkdownToHTML (clock w) advisorText agentName extraContext))
    [].

(** The three success objects. *)
Definition pdf_response (agentName extraContext : jsstring) : Response :=
  mkResponse (u "success") (u "PDF report sent for " ++ agentName)
    (Some (u "PDF")) None (Some extraContext).

Definition email_response (agentName extraContext : jsstring) : Response :=
  mkResponse (u "success") (u "HTML email sent for " ++ agentName)
    (Some (u "EMAIL")) None (Some extraContext).

Definition html_response (w : World)
  (agentName advisorText extraContext : jsstring) : Response :=
  mkResponse (u "success") (u "HTML successfully generated for " ++ agentName)
    (Some (u "HTML"))
    (Some (remove_nl (convertMarkdownToHTML (clock w) advisorText
                        agentName extraContext)))
    (Some extraContext).

(** What [doGet] makes of the outcome of [runAgent]. *)
Definition as_response (r : Result Response) : Response :=
  match r with
  | Ret resp => resp
  | Throw err => error_response err
  end.

(** What a handler can leave in the trace and return. *)
Definition handled (agentName : jsstring) (m : M Response) : Prop :=
  prompts (trace m) = []
  /\ (mails (trace m) = []
      \/ exists mail, mails (trace m) = [mail]
                      /\ to mail = recipient
                      /\ subject mail = agentName ++ u " - Output")
  /\ (forall r, outcome m = Ret r -> status r = u "success").

(** ** The page: the submit handler of the form *)

(** The properties of the page's elements the handler writes:
    [submitBtn.disabled], [submitBtn.innerHTML], [responseOutput.innerHTML],
    [connectionStatus.textContent] and the class tokens of
    [connectionStatus]. *)
Record Panel := mkPanel {
  submitDisabled : bool;
  submitHTML : jsstring;
  responseHTML : jsstring;
  statusText : jsstring;
  statusClasses : list jsstring
}.

(** What the handler does besides writing these properties. *)
Inductive PageEvent :=
| Alert (text : jsstring)
| HttpGet (agent contextText format : jsstring)  (* fetch, with the three
                                                    query parameters *)
| ConsoleLog (label : jsstring) (value : option jsstring)
| ConsoleError (label text : jsstring)
| FormReset.

(** How a [fetch] ends: it rejects with an error, or it resolves to a
    response with a status code whose [json()] gives an object or rejects. *)
Inductive FetchResult :=
| FetchError (text : jsstring)
| HttpResponse (code : N) (json : Result Response).

(** [response.ok] *)
Definition response_ok (code : N) : bool := (200 <=? code) && (code <=? 299).

(** A number in a template literal. *)
Definition decimal (n : N) : jsstring := u (NilZero.string_of_uint (N.to_uint n)).

(** A string or [undefined] in a template literal. *)
Definition interpolate (v : option jsstring) : jsstring :=
  match v with
  | Some s => s
  | None => u "undefined"
  end.

Definition spaces (n : nat) : jsstring := repeat 32 n.

Definition placeholder : jsstring :=
  u "<div class=" ++ [QUOT] ++ u "placeholder-text" ++ [QUOT]
  ++ u "><span class=" ++ [QUOT] ++ u "spinner" ++ [QUOT]
  ++ u "></span> Generating response from Agent...</div>".

(** The panel of the PDF and of the EMAIL format; they differ in the title
    and in the two closing paragraphs. *)
Definition success_panel (title line1 line2 agent : jsstring)
  (extra : option jsstring) : jsstring :=
  [NL] ++ spaces 24 ++ u "<div class=" ++ [QUOT] ++ u "success-message"
       ++ [QUOT] ++ u ">" ++ [NL]
  ++ spaces 28 ++ u "<h2>" ++ [9989] ++ u " " ++ title ++ u "</h2>" ++ [NL]
  ++ spaces 28 ++ u "<p><strong>Agent:</strong> " ++ agent ++ u "</p>" ++ [NL]
  ++ spaces 28 ++ u "<p><strong>Context:</strong> " ++ interpolate extra
       ++ u "</p>" ++ [NL]
  ++ spaces 28 ++ u "<p>" ++ line1 ++ u "</p>" ++ [NL]
  ++ spaces 28 ++ u "<p class=" ++ [QUOT] ++ u "note" ++ [QUOT] ++ u ">"
       ++ line2 ++ u "</p>" ++ [NL]
  ++ spaces 24 ++ u "</div>" ++ [NL]
  ++ spaces 20.

Definition pdf_panel (agent : jsstring) (extra : option jsstring) : jsstring :=
  success_panel (u "PDF Report Sent!")
    (u "The PDF report has been generated and sent to your email.")
    (u "Check your inbox for the attachment.") agent extra.

Definition email_panel (agent : jsstring) (extra : option jsstring) : jsstring :=
  success_panel (u "HTML Email Sent!")
    (u "A beautifully formatted HTML email has been sent to your inbox.")
    (u "Check your email to view the full response.") agent extra.

(** The panel of the [catch] block. *)
Definition error_panel (text : jsstring) : jsstring :=
  [NL] ++ spaces 16 ++ u "<div class=" ++ [QUOT] ++ u "log-entry error"
       ++ [QUOT] ++ u ">" ++ [NL]
  ++ spaces 20 ++ u "<strong>Error:</strong> Failed to fetch response.<br>" ++ [NL]
  ++ spaces 20 ++ text ++ u "<br><br>" ++ [NL]
  ++ spaces 20 ++ u "<em>Note: Ensure your Apps Script Web App is deployed as "
       ++ [QUOT] ++ u "Anyone" ++ [QUOT] ++ u " and returns CORS headers.</em>"
       ++ [NL]
  ++ spaces 16 ++ u "</div>" ++ [NL]
  ++ spaces 12.

(** [setLoading(isLoading)]; [originalBtnText] is the text of the button
    when the page was loaded. *)
Definition setLoading (originalBtnText : jsstring) (isLoading : bool)
  (p : Panel) : Panel :=
  let p := mkPanel isLoading
             (if isLoading then u "Dispatching..." else originalBtnText)
             (responseHTML p) (statusText p) (statusClasses p) in
  if isLoading then
    mkPanel (submitDisabled p) (submitHTML p) (responseHTML p)
      (u "Thinking...")
      (filter (fun c => negb (str_eqb c (u "active"))) (statusClasses p))
  else p.

(** The [catch] block. *)
Definition on_error (text : jsstring) (p : Panel) : Panel * list PageEvent :=
  (mkPanel (submitDisabled p) (submitHTML p) (error_panel text)
     (u "Error") (statusClasses p),
   [ConsoleError (u "Submission Error:") text]).

(** The branch of a success answer. *)
Definition on_success (agent : jsstring) (result : Response) (p : Panel)
  : Panel * list PageEvent :=
  let is_format f :=
    match outputFormat result with
    | Some g => str_eqb g f
    | None => false
    end in
  let shown :=
    if is_format (u "HTML") then interpolate (output result)
    else if is_format (u "PDF") then pdf_panel agent (extraContext result)
    else if is_format (u "EMAIL") then email_panel agent (extraContext result)
    else responseHTML p in
  (mkPanel (submitDisabled p) (submitHTML p) shown (u "Completed")
     [u "status-indicator"; u "active"],
   [ConsoleLog (u "Agent:") (Some agent);
    ConsoleLog (u "Context:") (extraContext result);
    ConsoleLog (u "Output Format:") (outputFormat result);
    FormReset]).

(** The listener of the form's [submit] event, run to its end.  [checked]
    is the value of the checked agent option, if one is checked;
    [contextInput] and [formatSelect] are the values of the two other
    fields; [server] says how the request ends. *)
Definition submit (originalBtnText : jsstring) (checked : option jsstring)
  (contextInput formatSelect : jsstring)
  (server : jsstring -> jsstring -> jsstring -> FetchResult)
  (p : Panel) : Panel * list PageEvent :=
  let p := setLoading originalBtnText true p in
  let p := mkPanel (submitDisabled p) (submitHTML p) placeholder
             (statusText p) (statusClasses p) in
  match checked with
  | None =>
      (setLoading originalBtnText false p, [Alert (u "Please select an agent.")])
  | Some agent =>
      let '(p, evs) :=
        match server agent contextInput formatSelect with
        | FetchError text => on_error text p
        | HttpResponse code json =>
            if negb (response_ok code)
            then on_error (u "HTTP error! status: " ++ decimal code) p
            else
              match json with
              | Throw text => on_error text p
              | Ret result =>
                  if str_eqb (status result) (u "success")
                  then on_success agent result p
                  else on_error (or_default (Some (message result))
                                   (u "Unknown error occurred")) p
              end
        end in
      (setLoading originalBtnText false p,
       HttpGet agent contextInput formatSelect :: evs)
  end.

(** The deployed web app as the page reaches it: the answer of [doGet] to
    the three query parameters, as a response with status 200. *)
Definition deployed `{CaseMapping} (w : World)
  : jsstring -> jsstring -> jsstring -> FetchResult :=
  fun agent contextText format =>
    HttpResponse 200
      (outcome (doGet w (mkRequest (Some agent) (Some contextText) (Some format)))).

(** The markup of a block as the specification gives it, every tag written
    out: a level-2 heading, an ordered or unordered list that wraps one list
    item per entry and ends with its own end tag, a paragraph. *)
Definition block_markup (esc : jsstring -> jsstring) (b : Block) : jsstring :=
  match b with
  | HeadingBlock t => u "<h2>" ++ esc t ++ u "</h2>" ++ [NL]
  | ListBlock Ordered items =>
      u "<ol>" ++ [NL]
      ++ List.concat (map (fun t => u "<li>" ++ esc t ++ u "</li>" ++ [NL]) items)
      ++ u "</ol>"
  | ListBlock Unordered items =>
      u "<ul>" ++ [NL]
      ++ List.concat (map (fun t => u "<li>" ++ esc t ++ u "</li>" ++ [NL]) items)
      ++ u "</ul>"
  | ParagraphBlock t => u "<p>" ++ esc t ++ u "</p>" ++ [NL]
  end.

(** * Properties *)

(** ** Strings *)

Lemma str_eqb_eq (a b : jsstring) : str_eqb a b = true <-> a = b.
Proof.
  unfold str_eqb. destruct (list_eq_dec N.eq_dec a b); split; congruence.
Qed.

Lemma str_eqb_neq (a b : jsstring) : str_eqb a b = false <-> a <> b.
Proof.
  unfold str_eqb. destruct (list_eq_dec N.eq_dec a b); split; congruence.
Qed.

Lemma split_nl_not_nil (s : jsstring) : split_nl s <> [].
Proof.
  destruct s as [|c r]; simpl; [easy|].
  destruct (c =? NL); [easy|]. now destruct (split_nl r).
Qed.

Lemma replace_char_app c b s t :
  replace_char c b (s ++ t) = replace_char c b s ++ replace_char c b t.
Proof. unfold replace_char. now rewrite flat_map_app. Qed.

Lemma remove_nl_app s t : remove_nl (s ++ t) = remove_nl s ++ remove_nl t.
Proof. apply replace_char_app. Qed.

Lemma remove_nl_no_newline s : ~ In NL (remove_nl s).
Proof.
  unfold remove_nl, replace_char. induction s as [|c r IH]; simpl; [tauto|].
  destruct (c =? NL) eqn:E; simpl; [exact IH|].
  intros [H|H]; [|tauto]. subst c. now rewrite N.eqb_refl in E.
Qed.

Lemma remove_nl_keeps c s : c <> NL -> In c s -> In c (remove_nl s).
Proof.
  intros Hc. unfold remove_nl, replace_char.
  induction s as [|x r IH]; simpl; [tauto|].
  intros [H|H].
  - subst x. destruct (c =? NL) eqn:E.
    + apply N.eqb_eq in E. contradiction.
    + now left.
  - apply in_or_app. right. now apply IH.
Qed.

(** ** escapeHtml, one character at a time *)

Lemma escapeHtml_app s t : escapeHtml (s ++ t) = escapeHtml s ++ escapeHtml t.
Proof. unfold escapeHtml. now rewrite !replace_char_app. Qed.

Lemma escapeHtml_char c : escapeHtml [c] = entity c.
Proof.
  unfold escapeHtml, entity, replace_char.
  cbn [flat_map]. rewrite app_nil_r.
  destruct (c =? AMP) eqn:E1; [reflexivity|].
  cbn [flat_map]. rewrite app_nil_r.
  destruct (c =? LT) eqn:E2; [reflexivity|].
  cbn [flat_map]. rewrite app_nil_r.
  destruct (c =? GT) eqn:E3; [reflexivity|].
  cbn [flat_map]. rewrite app_nil_r.
  destruct (c =? QUOT) eqn:E4; [reflexivity|].
  cbn [flat_map]. rewrite app_nil_r.
  destruct (c =? APOS) eqn:E5; reflexivity.
Qed.

Lemma escapeHtml_entities text : escapeHtml text = escape_entities text.
Proof.
  unfold escape_entities. induction text as [|c r IH]; [reflexivity|].
  change (c :: r) with ([c] ++ r).
  rewrite escapeHtml_app, escapeHtml_char, IH. reflexivity.
Qed.

(** ** The loop of convertMarkdownToHTML *)

Lemma html_step_out st line :
  html_step st line =
  let '(o, i, t) := html_out (inList st) (listType st) (classify (trim line)) in
  mkHtmlState (html st ++ o) i t.
Proof.
  destruct st as [h i t]. unfold html_step, classify, html_out, html_of_item, opening.
  cbn [html inList listType].
  destruct (str_eqb (trim line) []).
  { destruct i; [reflexivity|]. now rewrite app_nil_r. }
  destruct (endsWith (trim line) COLON).
  { destruct i; [now rewrite <- app_assoc | reflexivity]. }
  destruct (test_marker (trim line)).
  { destruct i, t; cbn; rewrite <- ?app_assoc; cbn; rewrite ?app_nil_r; reflexivity. }
  destruct (startsWith (trim line) DASH).
  { destruct i, t; cbn; rewrite <- ?app_assoc; cbn; rewrite ?app_nil_r; reflexivity. }
  destruct i; [now rewrite <- app_assoc | reflexivity].
Qed.

Lemma fold_html_step lines : forall st,
  let st' := fold_left html_step lines st in
  (if inList st' then html st' ++ closing (listType st') else html st')
  = html st ++ html_run (inList st) (listType st)
                        (map (fun line => classify (trim line)) lines).
Proof.
  induction lines as [|l r IH]; intros st; cbn [fold_left map html_run].
  - cbv zeta. destruct (inList st); [reflexivity | now rewrite app_nil_r].
  - cbv zeta in *. rewrite IH, html_step_out.
    destruct (html_out (inList st) (listType st) (classify (trim l))) as [[o i] t].
    cbn [html inList listType]. now rewrite <- app_assoc.
Qed.

Lemma convertMarkdownToHTML_run now text agentName extraContext :
  convertMarkdownToHTML now text agentName extraContext
  = html_header agentName extraContext
    ++ html_run false LT_none (kinds text) ++ html_footer now.
Proof.
  unfold convertMarkdownToHTML. cbv zeta.
  rewrite (fold_html_step (split_nl text)
             (mkHtmlState (html_header agentName extraContext) false LT_none)).
  cbn [html inList listType]. unfold kinds. now rewrite <- app_assoc.
Qed.

(** ** Blocks *)

Lemma ListKind_eqb_eq a b : ListKind_eqb a b = true <-> a = b.
Proof. destruct a, b; simpl; split; congruence. Qed.

Lemma list_tag_eqb a b : listType_eqb (list_tag a) (list_tag b) = ListKind_eqb a b.
Proof. now destruct a, b. Qed.

Lemma next_is_item_inv k ks :
  next_is_item k ks = true -> exists t r, ks = ListItem k t :: r.
Proof.
  destruct ks as [|[| |k' t|] r]; simpl; try discriminate.
  intros H. apply ListKind_eqb_eq in H. subst k'. eauto.
Qed.

Lemma blocks_of_item_head k t r :
  exists items bs, blocks_of (ListItem k t :: r) = ListBlock k (t :: items) :: bs.
Proof.
  simpl. destruct (next_is_item k r); [|eauto].
  destruct (blocks_of r) as [|[| |]]; eauto.
Qed.

Lemma blocks_of_run k t items ks :
  next_is_item k ks = false ->
  blocks_of (ListItem k t :: map (ListItem k) items ++ ks)
  = ListBlock k (t :: items) :: blocks_of ks.
Proof.
  intros Hk. revert t. induction items as [|t' items IH]; intros t.
  - cbn [map app blocks_of]. now rewrite Hk.
  - cbn [map app]. specialize (IH t').
    cbn [blocks_of] in *. cbn [next_is_item].
    replace (ListKind_eqb k k) with true by (now destruct k).
    now rewrite IH.
Qed.

Lemma Renders_blocks_of ks : Renders ks (blocks_of ks).
Proof.
  induction ks as [|[| t | k t | t] r IH]; cbn [blocks_of];
    try (constructor; assumption).
  destruct (next_is_item k r) eqn:E.
  - destruct (next_is_item_inv _ _ E) as (t' & r' & ->).
    remember (blocks_of (ListItem k t' :: r')) as B eqn:HB. clear HB.
    inversion IH as [| | | |k0 t0 items ks0 bs0 Hn Hr Hks Hbs]; subst.
    apply (Renders_list k t (t' :: items) ks0 bs0 Hn Hr).
  - apply (Renders_list k t [] r (blocks_of r) E IH).
Qed.

Lemma Renders_unique ks bs : Renders ks bs -> bs = blocks_of ks.
Proof.
  induction 1 as [|ks bs _ IH|t ks bs _ IH|t ks bs _ IH|k t items ks bs Hn _ IH].
  - reflexivity.
  - exact IH.
  - cbn [blocks_of]. now rewrite IH.
  - cbn [blocks_of]. now rewrite IH.
  - rewrite blocks_of_run by assumption. now rewrite IH.
Qed.

Lemma html_of_blocks_item k t r :
  html_of_blocks escapeHtml (blocks_of (ListItem k t :: r))
  = opening k ++ html_of_item escapeHtml t ++ rest_of_list k r.
Proof.
  unfold rest_of_list. cbn [blocks_of].
  destruct (next_is_item k r) eqn:E.
  - destruct (next_is_item_inv _ _ E) as (t' & r' & ->).
    destruct (blocks_of_item_head k t' r') as (items & bs & ->).
    unfold html_of_blocks. cbn [map List.concat html_of_block].
    now rewrite <- !app_assoc.
  - unfold html_of_blocks. cbn [map List.concat html_of_block].
    now rewrite <- !app_assoc.
Qed.

Lemma html_run_blocks ks :
  (forall t, html_run false t ks = html_of_blocks escapeHtml (blocks_of ks))
  /\ (forall k, html_run true (list_tag k) ks = rest_of_list k ks).
Proof.
  induction ks as [|[| t | k' t | t] r [IHc IHo]]; split; intros x.
  - reflexivity.
  - unfold rest_of_list. cbn. now rewrite app_nil_r.
  - cbn [html_run html_out blocks_of app]. apply IHc.
  - unfold rest_of_list. cbn [html_run html_out blocks_of next_is_item].
    now rewrite IHc.
  - cbn [html_run html_out blocks_of app]. rewrite IHc.
    unfold html_of_blocks. cbn [map List.concat html_of_block].
    now rewrite <- !app_assoc.
  - unfold rest_of_list. cbn [html_run html_out blocks_of next_is_item].
    rewrite IHc. unfold html_of_blocks. cbn [map List.concat html_of_block].
    now rewrite <- !app_assoc.
  - (* a list item, no list open *)
    rewrite html_of_blocks_item.
    cbn [html_run html_out negb orb app]. rewrite IHo.
    now rewrite <- !app_assoc.
  - (* a list item, a list of kind [x] open *)
    cbn [html_run html_out negb orb]. rewrite list_tag_eqb, IHo.
    unfold rest_of_list at 2. cbn [next_is_item].
    destruct (ListKind_eqb x k') eqn:E.
    + apply ListKind_eqb_eq in E. subst k'. cbn [negb app].
      destruct (blocks_of_item_head x t r) as (items & bs & Hb).
      pose proof (html_of_blocks_item x t r) as Hh. rewrite Hb in *.
      unfold html_of_blocks in Hh. cbn [map List.concat html_of_block] in Hh.
      rewrite <- !app_assoc in Hh. apply app_inv_head in Hh.
      rewrite <- Hh. fold (html_of_blocks escapeHtml bs).
      cbn [map List.concat]. now rewrite <- app_assoc.
    + cbn [negb]. rewrite html_of_blocks_item. now rewrite <- !app_assoc.
  - cbn [html_run html_out blocks_of app]. rewrite IHc.
    unfold html_of_blocks. cbn [map List.concat html_of_block].
    now rewrite <- !app_assoc.
  - unfold rest_of_list. cbn [html_run html_out blocks_of next_is_item].
    rewrite IHc. unfold html_of_blocks. cbn [map List.concat html_of_block].
    now rewrite <- !app_assoc.
Qed.

Lemma convertMarkdownToHTML_blocks now text agentName extraContext :
  convertMarkdownToHTML now text agentName extraContext
  = html_header agentName extraContext
    ++ html_of_blocks escapeHtml (blocks_of (kinds text)) ++ html_footer now.
Proof.
  rewrite convertMarkdownToHTML_run.
  now rewrite (proj1 (html_run_blocks (kinds text)) LT_none).
Qed.

(** ** Classification *)

(** [addStyledContent] runs the same chain of tests: the element it appends
    is fixed by the kind of the trimmed line.  For an ordered item it takes
    the whole line, not the text after the marker. *)
Lemma doc_step_classify body line :
  doc_step body line =
  match classify (trim line) with
  | Blank => body
  | Heading t =>
      body ++ [DocParagraph t [setHeading HEADING2; setBold true;
                               setSpacingBefore 16; setSpacingAfter 6]]
  | ListItem Ordered _ =>
      body ++ [DocListItem (trim line) [setGlyphType NUMBER; setFontSize 11]]
  | ListItem Unordered t =>
      body ++ [DocListItem t [setGlyphType BULLET; setFontSize 11]]
  | Paragraph t =>
      body ++ [DocParagraph t [setFontSize 11; setLineSpacing (14 # 10)%Q;
                               setSpacingAfter 8]]
  end.
Proof.
  unfold doc_step, classify.
  destruct (str_eqb (trim line) []); [reflexivity|].
  destruct (endsWith (trim line) COLON); [reflexivity|].
  destruct (test_marker (trim line)); [reflexivity|].
  destruct (startsWith (trim line) DASH); reflexivity.
Qed.



Example classify_dash_colon : classify (u "- a:") = Heading (u "- a:").
Proof. reflexivity. Qed.

Example classify_numbered : classify (u "12.   x") = ListItem Ordered (u "x").
Proof. reflexivity. Qed.

Example classify_dash : classify (u "-  y") = ListItem Unordered (u "y").
Proof. reflexivity. Qed.

Example classify_plain : classify (u ".5 z") = Paragraph (u ".5 z").
Proof. reflexivity. Qed.

(** ** List blocks *)

(** One step of the loop with a list of kind [k] open: an item of kind [k]
    is appended to it; an item of the other kind closes it and opens a new
    list; a blank line, a heading and a paragraph close it first. *)
Lemma html_step_open_list st k line :
  inList st = true -> listType st = list_tag k ->
  html_step st line =
  match classify (trim line) with
  | Blank => mkHtmlState (html st ++ closing (list_tag k)) false (list_tag k)
  | Heading t =>
      mkHtmlState (html st ++ closing (list_tag k)
                   ++ u "<h2>" ++ escapeHtml t ++ u "</h2>" ++ [NL])
                  false (list_tag k)
  | ListItem k' t =>
      if ListKind_eqb k k'
      then mkHtmlState (html st ++ html_of_item escapeHtml t) true (list_tag k)
      else mkHtmlState (html st ++ closing (list_tag k) ++ opening k'
                        ++ html_of_item escapeHtml t) true (list_tag k')
  | Paragraph t =>
      mkHtmlState (html st ++ closing (list_tag k)
                   ++ u "<p>" ++ escapeHtml t ++ u "</p>" ++ [NL])
                  false (list_tag k)
  end.
Proof.
  intros Hi Ht. rewrite html_step_out, Hi, Ht.
  destruct (classify (trim line)) as [|t|k' t|t]; cbn [html_out];
    try reflexivity.
  cbn [negb orb]. rewrite list_tag_eqb.
  destruct (ListKind_eqb k k') eqn:E; cbn [negb app].
  - apply ListKind_eqb_eq in E. now subst k'.
  - now rewrite <- app_assoc.
Qed.

Lemma html_of_block_markup esc b : html_of_block esc b = block_markup esc b.
Proof. destruct b as [t|[|] items|t]; reflexivity. Qed.

Lemma html_of_blocks_markup esc bs :
  html_of_blocks esc bs = List.concat (map (block_markup esc) bs).
Proof.
  unfold html_of_blocks. f_equal. apply map_ext, html_of_block_markup.
Qed.

(** C3.  The list blocks of the rendered page are maximal.  The classified
    lines of a text have exactly one reading as blocks in which every list
    block is a maximal run of consecutive items of one kind, and the page is
    the header, the markup of these blocks in order, and the footer.  In
    that markup a list block is its start tag, its items and its end tag
    ([</ol>] for an ordered, [</ul>] for an unordered list): an opened list
    is closed with the tag of its kind before the markup of the next block
    and before the footer. *)
Theorem list_blocks_maximal (now text agentName extraContext : jsstring) :
  exists bs,
    Renders (kinds text) bs
    /\ (forall bs', Renders (kinds text) bs' -> bs' = bs)
    /\ convertMarkdownToHTML now text agentName extraContext
       = html_header agentName extraContext
         ++ List.concat (map (block_markup escapeHtml) bs) ++ html_footer now.
Proof.
  exists (blocks_of (kinds text)). split; [|split].
  - apply Renders_blocks_of.
  - intros bs'. apply Renders_unique.
  - rewrite convertMarkdownToHTML_blocks. do 2 f_equal.
    apply html_of_blocks_markup.
Qed.

(** The page of the list boundary of the specification, tag by tag. *)
Example list_boundary_page (now agentName extraContext : jsstring) :
  convertMarkdownToHTML now (u "1. a" ++ [NL] ++ u "- b") agentName extraContext
  = html_header agentName extraContext
    ++ (u "<ol>" ++ [NL] ++ u "<li>a</li>" ++ [NL] ++ u "</ol>"
        ++ u "<ul>" ++ [NL] ++ u "<li>b</li>" ++ [NL] ++ u "</ul>")
    ++ html_footer now.
Proof. rewrite convertMarkdownToHTML_blocks. reflexivity. Qed.

Example list_merge :
  blocks_of (kinds (u "1. a" ++ [NL] ++ u "2. b" ++ [NL] ++ u "3. c"))
  = [ListBlock Ordered [u "a"; u "b"; u "c"]].
Proof. reflexivity. Qed.

Example list_boundary :
  blocks_of (kinds (u "1. a" ++ [NL] ++ u "- b"))
  = [ListBlock Ordered [u "a"]; ListBlock Unordered [u "b"]].
Proof. reflexivity. Qed.

Example blank_line_splits_list :
  blocks_of (kinds (u "- a" ++ [NL] ++ [NL] ++ u "- b"))
  = [ListBlock Unordered [u "a"]; ListBlock Unordered [u "b"]].
Proof. reflexivity. Qed.

(** ** Escaping *)

(** Every element of a literal list satisfies the goal. *)
Ltac each_of_literal H :=
  simpl in H;
  repeat (destruct H as [<-|H]; [repeat split; discriminate|]);
  contradiction.

Lemma entity_no_markup c x :
  In x (entity c) -> x <> LT /\ x <> GT /\ x <> QUOT /\ x <> APOS.
Proof.
  unfold entity. intros H.
  destruct (c =? AMP) eqn:E1; [each_of_literal H|].
  destruct (c =? LT) eqn:E2; [each_of_literal H|].
  destruct (c =? GT) eqn:E3; [each_of_literal H|].
  destruct (c =? QUOT) eqn:E4; [each_of_literal H|].
  destruct (c =? APOS) eqn:E5; [each_of_literal H|].
  destruct H as [<-|[]].
  apply N.eqb_neq in E2, E3, E4, E5. auto.
Qed.

Lemma escape_entities_no_markup text x :
  In x (escape_entities text) -> x <> LT /\ x <> GT /\ x <> QUOT /\ x <> APOS.
Proof.
  unfold escape_entities. rewrite in_flat_map.
  intros (c & _ & H). now apply entity_no_markup in H.
Qed.

Lemma html_of_blocks_ext (f g : jsstring -> jsstring) bs :
  (forall t, f t = g t) -> html_of_blocks f bs = html_of_blocks g bs.
Proof.
  intros E. unfold html_of_blocks. f_equal. apply map_ext.
  intros [t|k items|t]; cbn [html_of_block]; rewrite ?E; try reflexivity.
  do 2 f_equal. f_equal. apply map_ext. intros t. unfold html_of_item.
  now rewrite E.
Qed.

Lemma handleHTMLOutput_eq w agentName advisorText extraContext :
  handleHTMLOutput w agentName advisorText extraContext
  = ([Log (u "HTML successfully generated for " ++ agentName)],
     Ret (mkResponse (u "success")
            (u "HTML successfully generated for " ++ agentName)
            (Some (u "HTML"))
            (Some (remove_nl (convertMarkdownToHTML (clock w) advisorText
                                agentName extraContext)))
            (Some extraContext))).
Proof. reflexivity. Qed.

Lemma handleEmailOutput_eq w agentName advisorText extraContext :
  handleEmailOutput w agentName advisorText extraContext
  = let mail := mkMail recipient (agentName ++ u " - Output") None
                  (Some (convertMarkdownToHTML (clock w) advisorText
                           agentName extraContext)) [] in
    match mailSend w with
    | None =>
        ([SendEmail mail; Log (u "HTML email sent successfully for " ++ agentName)],
         Ret (mkResponse (u "success") (u "HTML email sent for " ++ agentName)
                (Some (u "EMAIL")) None (Some extraContext)))
    | Some e => ([SendEmail mail], Throw e)
    end.
Proof. unfold handleEmailOutput, call. now destruct (mailSend w). Qed.

(** C4.  In the page built for the HTML and the Email formats the text of
    every block has each of the five characters replaced by its entity, so
    no [<], [>], double or single quote of a text is left; the HTML response
    carries that page without any newline character, the email carries it as
    its HTML body. *)
Theorem block_text_escaped (w : World) (agentName advisorText extraContext : jsstring) :
  let page := escaped_page (clock w) advisorText agentName extraContext in
  convertMarkdownToHTML (clock w) advisorText agentName extraContext = page
  /\ (forall t x, In x (escape_entities t) ->
        x <> LT /\ x <> GT /\ x <> QUOT /\ x <> APOS)
  /\ (exists r,
        outcome (handleHTMLOutput w agentName advisorText extraContext) = Ret r
        /\ output r = Some (remove_nl page)
        /\ ~ In NL (remove_nl page))
  /\ In (SendEmail (mkMail recipient (agentName ++ u " - Output") None
                      (Some page) []))
        (trace (handleEmailOutput w agentName advisorText extraContext)).
Proof.
  cbv zeta.
  assert (E : convertMarkdownToHTML (clock w) advisorText agentName extraContext
              = escaped_page (clock w) advisorText agentName extraContext).
  { rewrite convertMarkdownToHTML_blocks. unfold escaped_page.
    do 2 f_equal. apply html_of_blocks_ext, escapeHtml_entities. }
  split; [exact E|]. split; [apply escape_entities_no_markup|]. split.
  - rewrite handleHTMLOutput_eq, E. unfold outcome. cbn [snd].
    eexists. split; [reflexivity|]. split; [reflexivity|].
    apply remove_nl_no_newline.
  - rewrite handleEmailOutput_eq, E. cbv zeta. unfold trace.
    destruct (mailSend w); cbn [fst]; now left.
Qed.

Example escape_all_five :
  escapeHtml (u "<a href=" ++ [QUOT] ++ u "x" ++ [QUOT] ++ u ">R&D's</a>")
  = u "&lt;a href=&quot;x&quot;&gt;R&amp;D&#039;s&lt;/a&gt;".
Proof. reflexivity. Qed.

(** ** Blank-only text *)

Lemma blocks_of_blank ks : Forall (eq Blank) ks -> blocks_of ks = [].
Proof. induction 1 as [|k r <- _ IH]; [reflexivity | exact IH]. Qed.

Lemma kinds_blank text :
  Forall (fun line => trim line = []) (split_nl text) ->
  Forall (eq Blank) (kinds text).
Proof.
  unfold kinds. induction 1 as [|l r Hl _ IH]; cbn [map]; constructor; auto.
  now rewrite Hl.
Qed.

Lemma addStyledContent_blank lines : forall body,
  Forall (fun line => trim line = []) lines ->
  fold_left doc_step lines body = body.
Proof.
  induction lines as [|l r IH]; intros body H; [reflexivity|].
  inversion H as [|? ? Hl Hr]; subst. cbn [fold_left].
  unfold doc_step at 2. rewrite Hl. cbn. now apply IH.
Qed.

(** C8.  A text of blank lines only (the empty text included) has no block.
    The HTML page is the shell alone, written out here character by
    character: the opening [div], the [h1] title of agent name and context,
    the footer [div] with its two paragraphs and the closing [div]; the HTML
    response carries it with the newlines removed, the email carries it as
    its HTML body.  [addStyledContent] appends nothing, so the document is
    the title and its spacing paragraphs.  The adapters are total
    functions: there is no input on which they fail. *)
Theorem blank_only_shell (w : World) (text agentName extraContext : jsstring)
  (body : Body) :
  Forall (fun line => trim line = []) (split_nl text) ->
  let shell :=
    [NL] ++ u "<div class=" ++ [QUOT] ++ u "agent-response" ++ [QUOT] ++ u ">"
    ++ [NL]
    ++ u "    <h1>" ++ agentName ++ u " - " ++ extraContext ++ u "</h1>" ++ [NL]
    ++ [NL]
    ++ u "    <div class=" ++ [QUOT] ++ u "footer" ++ [QUOT] ++ u ">" ++ [NL]
    ++ u "        <p>Generated by Strategic Advisor System</p>" ++ [NL]
    ++ u "        <p>" ++ clock w ++ u "</p>" ++ [NL]
    ++ u "    </div>" ++ [NL]
    ++ u "</div>" ++ [NL] in
  Renders (kinds text) []
  /\ convertMarkdownToHTML (clock w) text agentName extraContext = shell
  /\ outcome (handleHTMLOutput w agentName text extraContext)
     = Ret (mkResponse (u "success")
              (u "HTML successfully generated for " ++ agentName)
              (Some (u "HTML"))
              (Some (remove_nl shell))
              (Some extraContext))
  /\ In (SendEmail (mkMail (u "gauravtalele2025@gmail.com")
                      (agentName ++ u " - Output") None (Some shell) []))
        (trace (handleEmailOutput w agentName text extraContext))
  /\ addStyledContent body text = body
  /\ docBody (pdf_document agentName text extraContext)
     = [DocParagraph (agentName ++ u " - " ++ extraContext)
          [setHeading HEADING1; setBold true];
        DocParagraph [] []; DocParagraph (u " ") []; DocParagraph (u " ") []].
Proof.
  intros H. cbv zeta.
  assert (Hb : blocks_of (kinds text) = []) by now apply blocks_of_blank, kinds_blank.
  assert (Hh : convertMarkdownToHTML (clock w) text agentName extraContext
               = html_header agentName extraContext ++ html_footer (clock w)).
  { rewrite convertMarkdownToHTML_blocks, Hb. reflexivity. }
  assert (Hs : html_header agentName extraContext ++ html_footer (clock w)
               = [NL] ++ u "<div class=" ++ [QUOT] ++ u "agent-response"
                 ++ [QUOT] ++ u ">" ++ [NL]
                 ++ u "    <h1>" ++ agentName ++ u " - " ++ extraContext
                 ++ u "</h1>" ++ [NL] ++ [NL]
                 ++ u "    <div class=" ++ [QUOT] ++ u "footer" ++ [QUOT]
                 ++ u ">" ++ [NL]
                 ++ u "        <p>Generated by Strategic Advisor System</p>"
                 ++ [NL]
                 ++ u "        <p>" ++ clock w ++ u "</p>" ++ [NL]
                 ++ u "    </div>" ++ [NL] ++ u "</div>" ++ [NL]).
  { unfold html_header, html_title_open, html_footer.
    rewrite <- !app_assoc. reflexivity. }
  rewrite Hs in Hh.
  split; [|split; [|split; [|split; [|split]]]].
  - rewrite <- Hb. apply Renders_blocks_of.
  - exact Hh.
  - rewrite handleHTMLOutput_eq, Hh. reflexivity.
  - rewrite handleEmailOutput_eq, Hh. cbv zeta. unfold trace.
    destruct (mailSend w); cbn [fst]; left; reflexivity.
  - now apply addStyledContent_blank.
  - unfold pdf_document. cbn [docBody]. unfold addStyledContent.
    now rewrite addStyledContent_blank.
Qed.

Lemma blank_only_shell_witness :
  let text := u "  " ++ [NL; 9; NL] in
  Renders (kinds text) []
  /\ convertMarkdownToHTML (u "1/1/2026") text (u "SA") (u "deadlines")
     = [NL] ++ u "<div class=" ++ [QUOT] ++ u "agent-response" ++ [QUOT]
       ++ u ">" ++ [NL]
       ++ u "    <h1>SA - deadlines</h1>" ++ [NL] ++ [NL]
       ++ u "    <div class=" ++ [QUOT] ++ u "footer" ++ [QUOT] ++ u ">" ++ [NL]
       ++ u "        <p>Generated by Strategic Advisor System</p>" ++ [NL]
       ++ u "        <p>1/1/2026</p>" ++ [NL]
       ++ u "    </div>" ++ [NL] ++ u "</div>" ++ [NL].
Proof.
  pose (w := mkWorld None None (fun _ => Throw []) (u "1/1/2026") []
               None None None None None).
  assert (H : Forall (fun line => trim line = [])
                (split_nl (u "  " ++ [NL; 9; NL]))).
  { repeat constructor. }
  destruct (blank_only_shell w _ (u "SA") (u "deadlines") [] H) as (H1 & H2 & _).
  exact (conj H1 H2).
Defined.

Example empty_text_is_blank : kinds [] = [Blank].
Proof. reflexivity. Qed.

(** ** The title *)

Lemma special_not_newline x : In x [AMP; LT; GT; QUOT; APOS] -> x <> NL.
Proof.
  simpl. intros H.
  repeat (destruct H as [<-|H]; [discriminate|]). contradiction.
Qed.

(** C10.  The title is the agent name and the context as they come, with no
    escaping: the emailed page has them verbatim inside its [h1]; the page of
    the HTML response has them with newline characters removed and nothing
    else changed, so each of the five special characters they hold is there
    as it is. *)
Theorem title_not_escaped (w : World) (agentName advisorText extraContext : jsstring) :
  (exists rest,
      In (SendEmail (mkMail recipient (agentName ++ u " - Output") None
                       (Some (html_title_open ++ agentName ++ u " - "
                              ++ extraContext ++ u "</h1>" ++ rest)) []))
         (trace (handleEmailOutput w agentName advisorText extraContext)))
  /\ (exists rest r,
        outcome (handleHTMLOutput w agentName advisorText extraContext) = Ret r
        /\ output r = Some (remove_nl html_title_open ++ remove_nl agentName
                            ++ u " - " ++ remove_nl extraContext
                            ++ u "</h1>" ++ rest))
  /\ (forall x, In x [AMP; LT; GT; QUOT; APOS] ->
        (In x agentName -> In x (remove_nl agentName))
        /\ (In x extraContext -> In x (remove_nl extraContext))).
Proof.
  split; [|split].
  - rewrite handleEmailOutput_eq, convertMarkdownToHTML_run. cbv zeta.
    unfold html_header. rewrite <- !app_assoc.
    eexists. unfold trace. destruct (mailSend w); cbn [fst]; left; reflexivity.
  - rewrite handleHTMLOutput_eq, convertMarkdownToHTML_run.
    unfold html_header, outcome. cbn [snd].
    rewrite <- !app_assoc, !remove_nl_app.
    do 2 eexists. split; [reflexivity|]. cbn [output].
    change (remove_nl (u " - ")) with (u " - ").
    change (remove_nl (u "</h1>")) with (u "</h1>").
    reflexivity.
  - intros x Hx. apply special_not_newline in Hx.
    split; now apply remove_nl_keeps.
Qed.

Example title_with_markup :
  let page := convertMarkdownToHTML (u "now") [] (u "<b>A&B</b>") (u "'x'") in
  page = html_title_open ++ u "<b>A&B</b> - 'x'</h1>" ++ [NL] ++ html_footer (u "now").
Proof. reflexivity. Qed.

(** ** The ordered items of the two adapters *)

Lemma dropWhile_length p s : (List.length (dropWhile p s) <= List.length s)%nat.
Proof.
  induction s as [|c r IH]; simpl; [lia|]. destruct (p c); simpl; lia.
Qed.

Lemma match_marker_shorter s rest :
  match_marker s = Some rest -> (List.length rest < List.length s)%nat.
Proof.
  unfold match_marker. destruct (takeWhile is_digit s); [discriminate|].
  destruct (dropWhile is_digit s) as [|c r] eqn:E; [discriminate|].
  destruct (c =? DOT); [|discriminate]. intros [= <-].
  pose proof (dropWhile_length is_digit s) as H. rewrite E in H. simpl in H. lia.
Qed.

(** For every ordered item the text of the HTML adapter is strictly shorter
    than the line, which is the text the document adapter takes. *)
Lemma ordered_item_text_shorter line t :
  classify line = ListItem Ordered t -> (List.length t < List.length line)%nat.
Proof.
  unfold classify.
  destruct (str_eqb line []); [discriminate|].
  destruct (endsWith line COLON); [discriminate|].
  destruct (test_marker line) eqn:E.
  - intros [= <-]. unfold strip_marker. unfold test_marker in E.
    destruct (match_marker line) as [rest|] eqn:Em; [|discriminate].
    apply match_marker_shorter in Em.
    pose proof (dropWhile_length is_space rest). lia.
  - destruct (startsWith line DASH); discriminate.
Qed.

(** C1, at the line ["1. a"].  The HTML and Email page carries the item text
    ["a"], the text after the marker; the document of the PDF format carries
    the whole line ["1. a"] in a numbered list item.  The two adapters do
    not agree on the text of an ordered item. *)
Theorem ordered_item_text_differs (now agentName extraContext : jsstring)
  (body : Body) :
  convertMarkdownToHTML now (u "1. a") agentName extraContext
  = html_header agentName extraContext
    ++ (u "<ol>" ++ [NL] ++ u "<li>" ++ u "a" ++ u "</li>" ++ [NL] ++ u "</ol>")
    ++ html_footer now
  /\ addStyledContent body (u "1. a")
     = body ++ [DocListItem (u "1. a") [setGlyphType NUMBER; setFontSize 11]]
  /\ u "a" <> u "1. a".
Proof.
  split; [|split].
  - rewrite convertMarkdownToHTML_blocks. reflexivity.
  - reflexivity.
  - discriminate.
Qed.

Example bullet_item_text_agrees (body : Body) :
  blocks_of (kinds (u "- a")) = [ListBlock Unordered [u "a"]]
  /\ addStyledContent body (u "- a")
     = body ++ [DocListItem (u "a") [setGlyphType BULLET; setFontSize 11]].
Proof. split; reflexivity. Qed.

(** ** The PDF path *)

Lemma handlePDFOutput_sent w agentName advisorText extraContext :
  docCreate w = None -> docSave w = None ->
  pdfConvert w = None -> mailSend w = None ->
  let doc := pdf_document agentName advisorText extraContext in
  let pdfName := agentName ++ u "-Output.pdf" in
  handlePDFOutput w agentName advisorText extraContext
  = ([DocCreate (agentName ++ u "-Output");
      DocSaveAndClose doc;
      PdfConvert pdfName;
      SendEmail (mkMail recipient (agentName ++ u " - Output")
                   (Some (u "Attached is the strategic report for "
                          ++ agentName ++ u "."))
                   None [(pdfName, doc)]);
      SetTrashed;
      Log (match trash w with
           | None => u "Cleaned up temporary Google Doc: " ++ newDocId w
           | Some e => u "Warning: Could not delete temporary doc: " ++ e
           end);
      Log (u "PDF report sent successfully for " ++ agentName)],
     Ret (mkResponse (u "success") (u "PDF report sent for " ++ agentName)
            (Some (u "PDF")) None (Some extraContext))).
Proof.
  intros H1 H2 H3 H4. unfold handlePDFOutput, call.
  rewrite H1, H2, H3, H4. now destruct (trash w).
Qed.

Lemma handlePDFOutput_failed w agentName advisorText extraContext :
  docCreate w <> None \/ docSave w <> None
  \/ pdfConvert w <> None \/ mailSend w <> None ->
  ~ In SetTrashed (trace (handlePDFOutput w agentName advisorText extraContext))
  /\ exists e,
       outcome (handlePDFOutput w agentName advisorText extraContext) = Throw e.
Proof.
  intros H. unfold handlePDFOutput, call, trace, outcome.
  destruct (docCreate w) as [e1|];
    [split; [intros [A|[]]; discriminate | now exists e1]|].
  destruct (docSave w) as [e2|];
    [split; [intros [A|[A|[]]]; discriminate | now exists e2]|].
  destruct (pdfConvert w) as [e3|];
    [split; [intros [A|[A|[A|[]]]]; discriminate | now exists e3]|].
  destruct (mailSend w) as [e4|];
    [split; [intros [A|[A|[A|[A|[]]]]]; discriminate | now exists e4]|].
  exfalso. destruct H as [H|[H|[H|H]]]; now apply H.
Qed.

(** C5, as the code has it.  The deletion of the intermediate document is
    attempted once, after the PDF has been attached and sent; whether it
    succeeds or throws, a line is logged and the request returns the success
    response.  When creating, saving, converting or sending throws, the
    request throws and no deletion is attempted. *)
Theorem pdf_cleanup_after_send (w : World)
  (agentName advisorText extraContext : jsstring) :
  let m := handlePDFOutput w agentName advisorText extraContext in
  let doc := pdf_document agentName advisorText extraContext in
  let pdfName := agentName ++ u "-Output.pdf" in
  (docCreate w = None -> docSave w = None ->
   pdfConvert w = None -> mailSend w = None ->
   trace m
   = [DocCreate (agentName ++ u "-Output");
      DocSaveAndClose doc;
      PdfConvert pdfName;
      SendEmail (mkMail recipient (agentName ++ u " - Output")
                   (Some (u "Attached is the strategic report for "
                          ++ agentName ++ u "."))
                   None [(pdfName, doc)]);
      SetTrashed;
      Log (match trash w with
           | None => u "Cleaned up temporary Google Doc: " ++ newDocId w
           | Some e => u "Warning: Could not delete temporary doc: " ++ e
           end);
      Log (u "PDF report sent successfully for " ++ agentName)]
   /\ outcome m
      = Ret (mkResponse (u "success") (u "PDF report sent for " ++ agentName)
               (Some (u "PDF")) None (Some extraContext)))
  /\ (docCreate w <> None \/ docSave w <> None
      \/ pdfConvert w <> None \/ mailSend w <> None ->
      ~ In SetTrashed (trace m) /\ exists e, outcome m = Throw e).
Proof.
  cbv zeta. split.
  - intros H1 H2 H3 H4.
    rewrite (handlePDFOutput_sent w agentName advisorText extraContext H1 H2 H3 H4).
    split; reflexivity.
  - apply handlePDFOutput_failed.
Qed.

Lemma pdf_cleanup_after_send_witness :
  outcome (handlePDFOutput
             (sample_world sample_rows None None (Some (u "Access denied")))
             (u "SA") sample_text (u "deadlines"))
  = Ret (mkResponse (u "success") (u "PDF report sent for SA")
           (Some (u "PDF")) None (Some (u "deadlines")))
  /\ ~ In SetTrashed
        (trace (handlePDFOutput
                  (sample_world sample_rows None (Some (u "Limit exceeded")) None)
                  (u "SA") sample_text (u "deadlines"))).
Proof.
  split.
  - apply (proj1 (pdf_cleanup_after_send
                    (sample_world sample_rows None None (Some (u "Access denied")))
                    (u "SA") sample_text (u "deadlines")));
      reflexivity.
  - apply (proj2 (pdf_cleanup_after_send
                    (sample_world sample_rows None (Some (u "Limit exceeded")) None)
                    (u "SA") sample_text (u "deadlines"))).
    right. right. right. discriminate.
Defined.

(** C5 as stated fails: the document is created and saved, the conversion or
    the sending throws, and the deletion is never attempted. *)
Lemma pdf_cleanup_not_guaranteed :
  let convert_fails :=
    handlePDFOutput (sample_world sample_rows (Some (u "Conversion failed")) None None)
      (u "SA") sample_text (u "deadlines") in
  let send_fails :=
    handlePDFOutput (sample_world sample_rows None (Some (u "Limit exceeded")) None)
      (u "SA") sample_text (u "deadlines") in
  (In (DocCreate (u "SA-Output")) (trace convert_fails)
   /\ ~ In SetTrashed (trace convert_fails)
   /\ outcome convert_fails = Throw (u "Conversion failed"))
  /\ (In (DocCreate (u "SA-Output")) (trace send_fails)
      /\ ~ In SetTrashed (trace send_fails)
      /\ outcome send_fails = Throw (u "Limit exceeded")).
Proof.
  cbv zeta. split; (split; [left; reflexivity|]); (split; [|reflexivity]).
  - intros [A|[A|[A|[]]]]; discriminate.
  - intros [A|[A|[A|[A|[]]]]]; discriminate.
Qed.

(** ** The dispatcher *)

Lemma is_ascii_u (s : string) :
  forallb (fun c => c <? 128) (u s) = true -> is_ascii (u s).
Proof.
  unfold is_ascii. rewrite forallb_forall, Forall_forall.
  intros H c Hc. now apply N.ltb_lt, H.
Qed.

Lemma find_no_match {A} (f : A -> bool) (l : list A) :
  (forall x, In x l -> f x = false) -> find f l = None.
Proof.
  induction l as [|a r IH]; intros H; [reflexivity|]. cbn [find].
  rewrite (H a) by now left. apply IH. intros x Hx. apply H. now right.
Qed.

Section Dispatcher.

Context `{CaseMapping}.

Lemma toUpperCase_PDF : toUpperCase (u "PDF") = u "PDF".
Proof. now rewrite toUpperCase_ascii by now apply is_ascii_u. Qed.

Lemma runAgent_falsy_prompt w rows agentName extraContext outputFormat :
  GTAgents w = Some rows ->
  falsy (lookup_basePrompt rows agentName) = true ->
  runAgent w agentName extraContext outputFormat
  = ([SheetRead], Throw (not_found agentName)).
Proof.
  intros Hs Hf. unfold runAgent, bind. rewrite Hs.
  destruct (lookup_basePrompt rows agentName) as [p|]; [|reflexivity].
  now rewrite Hf.
Qed.

Lemma doGet_valid w e name :
  agentname e = Some name -> name <> [] ->
  includes formats
    (toUpperCase (or_default (outputFormatParam e) (u "PDF"))) = true ->
  doGet w e
  = tryCatch
      (runAgent w name (or_default (context e) [])
         (toUpperCase (or_default (outputFormatParam e) (u "PDF"))))
      (fun err => ret (error_response err)).
Proof.
  intros Ha Hn Hf. unfold doGet. rewrite Ha. cbn [falsy].
  apply str_eqb_neq in Hn. now rewrite Hn, Hf.
Qed.

(** C6.  When no row after the header passes the test of the lookup loop
    (the stored name, trimmed and lower-cased, against the lower-cased agent
    name), [runAgent] throws the not-found error after reading the sheet and
    nothing else: the provider is not called.  A request that passed the
    validation of [doGet] is answered with that error. *)
Theorem unknown_agent_not_found (w : World) (rows : list Row)
  (agentName extraContext outputFormat : jsstring) :
  GTAgents w = Some rows ->
  (forall row, In row (tl rows) -> row_matches agentName row = false) ->
  runAgent w agentName extraContext outputFormat
  = ([SheetRead], Throw (not_found agentName))
  /\ (forall e,
        agentname e = Some agentName -> agentName <> [] ->
        includes formats
          (toUpperCase (or_default (outputFormatParam e) (u "PDF"))) = true ->
        doGet w e = ([SheetRead], Ret (error_response (not_found agentName)))).
Proof.
  intros Hs Hm.
  assert (R : forall c f, runAgent w agentName c f
                          = ([SheetRead], Throw (not_found agentName))).
  { intros c f. apply (runAgent_falsy_prompt w rows); [exact Hs|].
    unfold lookup_basePrompt. now rewrite (find_no_match _ _ Hm). }
  split; [apply R|].
  intros e Ha Hn Hf. rewrite (doGet_valid w e agentName Ha Hn Hf), R.
  reflexivity.
Qed.

(** C7.  [doGet] takes the output format from the parameter, or PDF when
    the parameter is absent or empty, in upper case.  A request with no (or
    an empty) agent name, and a request whose format is not PDF, EMAIL or
    HTML, are answered with an error object without any call: no sheet
    read, no provider call, no document, no email.  Every other request
    goes to [runAgent] with the upper-cased format. *)
Theorem invalid_request_fails_immediately (w : World) (e : Request) :
  let fmt := toUpperCase (or_default (outputFormatParam e) (u "PDF")) in
  (falsy (outputFormatParam e) = true -> fmt = u "PDF")
  /\ (falsy (agentname e) = true ->
      doGet w e = ([], Ret (error_response (u "Missing agentname parameter"))))
  /\ (falsy (agentname e) = false -> includes formats fmt = false ->
      doGet w e
      = ([], Ret (error_response
                    (u "Invalid outputFormat. Must be PDF, HTML, or EMAIL"))))
  /\ (forall name,
        agentname e = Some name -> name <> [] -> includes formats fmt = true ->
        doGet w e
        = tryCatch (runAgent w name (or_default (context e) []) fmt)
            (fun err => ret (error_response err))).
Proof.
  cbv zeta. split; [|split; [|split]].
  - intros Hf. unfold or_default.
    destruct (outputFormatParam e) as [s|]; [rewrite Hf|]; apply toUpperCase_PDF.
  - intros Hf. unfold doGet.
    destruct (agentname e) as [name|]; [rewrite Hf|]; reflexivity.
  - intros Ha Hf. unfold doGet.
    destruct (agentname e) as [name|]; [|discriminate].
    now rewrite Ha, Hf.
  - intros name. apply doGet_valid.
Qed.

(** C9, as the code has it.  When the first row after the header that
    passes the test of the lookup loop has an empty base prompt, [runAgent]
    throws the not-found error after reading the sheet and nothing else. *)
Theorem empty_prompt_not_found (w : World) (rows : list Row) (row : Row)
  (agentName extraContext outputFormat : jsstring) :
  GTAgents w = Some rows ->
  find (row_matches agentName) (tl rows) = Some row ->
  hd_error (snd row) = Some [] ->
  runAgent w agentName extraContext outputFormat
  = ([SheetRead], Throw (not_found agentName)).
Proof.
  intros Hs Hf Hp. apply (runAgent_falsy_prompt w rows); [exact Hs|].
  unfold lookup_basePrompt. now rewrite Hf, Hp.
Qed.

End Dispatcher.

(** ** The dispatcher on the sample deployment *)

Lemma unknown_agent_not_found_witness :
  let w := sample_world sample_rows None None None in
  @runAgent ascii_case w (u "XX") (u "deadlines") (u "HTML")
  = ([SheetRead], Throw (not_found (u "XX")))
  /\ @doGet ascii_case w
       (mkRequest (Some (u "XX")) (Some (u "deadlines")) (Some (u "html")))
     = ([SheetRead], Ret (error_response (not_found (u "XX")))).
Proof.
  cbv zeta.
  assert (Hm : forall row, In row (tl sample_rows) ->
                           @row_matches ascii_case (u "XX") row = false).
  { intros row [<-|[]]. reflexivity. }
  destruct (@unknown_agent_not_found ascii_case
              (sample_world sample_rows None None None) sample_rows
              (u "XX") (u "deadlines") (u "HTML") eq_refl Hm) as [H1 H2].
  split; [exact H1|].
  apply H2; [reflexivity | discriminate | reflexivity].
Defined.

Lemma invalid_request_fails_immediately_witness :
  let w := sample_world sample_rows None None None in
  @doGet ascii_case w (mkRequest None (Some (u "deadlines")) (Some (u "HTML")))
  = ([], Ret (error_response (u "Missing agentname parameter")))
  /\ @doGet ascii_case w
       (mkRequest (Some (u "SA")) (Some (u "deadlines")) (Some (u "XML")))
     = ([], Ret (error_response
                   (u "Invalid outputFormat. Must be PDF, HTML, or EMAIL"))).
Proof.
  cbv zeta. split.
  - apply (proj1 (proj2 (@invalid_request_fails_immediately ascii_case
                           (sample_world sample_rows None None None)
                           (mkRequest None (Some (u "deadlines")) (Some (u "HTML")))))).
    reflexivity.
  - apply (proj1 (proj2 (proj2 (@invalid_request_fails_immediately ascii_case
                           (sample_world sample_rows None None None)
                           (mkRequest (Some (u "SA")) (Some (u "deadlines"))
                                      (Some (u "XML"))))))); reflexivity.
Defined.

Lemma empty_prompt_not_found_witness :
  @runAgent ascii_case
     (sample_world [(u "Agent", [u "Prompt"]); (u " SA ", [[]])] None None None)
     (u "sa") (u "deadlines") (u "HTML")
  = ([SheetRead], Throw (not_found (u "sa"))).
Proof.
  apply (@empty_prompt_not_found ascii_case
           (sample_world [(u "Agent", [u "Prompt"]); (u " SA ", [[]])] None None None)
           [(u "Agent", [u "Prompt"]); (u " SA ", [[]])] (u " SA ", [[]]));
    reflexivity.
Defined.

(** C9 as stated fails: the sheet holds a row for the agent with an empty
    base prompt, after another row for the same agent; the lookup stops at
    the first one, the provider is called and the request succeeds. *)
Lemma empty_prompt_row_not_consulted :
  let w := sample_world duplicate_rows None None None in
  let m := @runAgent ascii_case w (u "SA") (u "deadlines") (u "HTML") in
  (exists row,
      In row duplicate_rows
      /\ @row_matches ascii_case (u "SA") row = true
      /\ hd_error (snd row) = Some [])
  /\ trace m = [SheetRead; PropertyRead;
                Fetch (u "Advise on:" ++ [NL; NL] ++ u "deadlines");
                Log (u "HTML successfully generated for SA")]
  /\ (exists r, outcome m = Ret r /\ status r = u "success")
  /\ outcome m <> Throw (not_found (u "SA")).
Proof.
  cbv zeta. split; [|split; [|split]].
  - exists (u "sa", [[]]). split; [|split]; try reflexivity.
    right. right. left. reflexivity.
  - reflexivity.
  - eexists. split; reflexivity.
  - discriminate.
Qed.

(** The end-to-end scenario of the specification: agent SA, format HTML. *)
Example end_to_end_html :
  let w := sample_world sample_rows None None None in
  let m := @doGet ascii_case w
             (mkRequest (Some (u "SA")) (Some (u "deadlines")) (Some (u "html"))) in
  trace m = [SheetRead; PropertyRead;
             Fetch (u "Advise on:" ++ [NL; NL] ++ u "deadlines");
             Log (u "HTML successfully generated for SA")]
  /\ outcome m
     = Ret (mkResponse (u "success") (u "HTML successfully generated for SA")
              (Some (u "HTML"))
              (Some (u "<div class=" ++ [QUOT] ++ u "agent-response" ++ [QUOT]
                     ++ u ">    <h1>SA - deadlines</h1>"
                     ++ u "<h2>Risks:</h2><ul><li>slip</li><li>burnout</li></ul>"
                     ++ u "<h2>Next steps:</h2>"
                     ++ u "<ol><li>replan</li><li>communicate</li></ol>"
                     ++ u "    <div class=" ++ [QUOT] ++ u "footer" ++ [QUOT] ++ u ">"
                     ++ u "        <p>Generated by Strategic Advisor System</p>"
                     ++ u "        <p>1/1/2026, 9:00:00 AM</p>    </div></div>"))
              (Some (u "deadlines"))).
Proof. split; vm_compute; reflexivity. Qed.

(** An empty [outputFormat] parameter is taken as PDF. *)
Example empty_format_is_pdf :
  trace (@doGet ascii_case (sample_world sample_rows None None None)
           (mkRequest (Some (u "SA")) None (Some [])))
  = [SheetRead; PropertyRead; Fetch (u "Advise on:" ++ [NL; NL]);
     DocCreate (u "SA-Output");
     DocSaveAndClose (pdf_document (u "SA") sample_text []);
     PdfConvert (u "SA-Output.pdf");
     SendEmail (mkMail recipient (u "SA - Output")
                  (Some (u "Attached is the strategic report for SA."))
                  None [(u "SA-Output.pdf", pdf_document (u "SA") sample_text [])]);
     SetTrashed;
     Log (u "Cleaned up temporary Google Doc: doc-1");
     Log (u "PDF report sent successfully for SA")].
Proof. vm_compute. reflexivity. Qed.

(** * Further properties of the code *)

(** ** escapeHtml *)

Lemma entity_cases c :
  (c = AMP \/ c = LT \/ c = GT \/ c = QUOT \/ c = APOS)
  \/ (is_special c = false /\ entity c = [c]).
Proof.
  unfold is_special, entity.
  destruct (c =? AMP) eqn:E1; [apply N.eqb_eq in E1; auto|].
  destruct (c =? LT) eqn:E2; [apply N.eqb_eq in E2; auto|].
  destruct (c =? GT) eqn:E3; [apply N.eqb_eq in E3; auto 6|].
  destruct (c =? QUOT) eqn:E4; [apply N.eqb_eq in E4; auto 6|].
  destruct (c =? APOS) eqn:E5; [apply N.eqb_eq in E5; auto 7|].
  right. split; reflexivity.
Qed.

Lemma is_special_false_amp c : is_special c = false -> c <> AMP.
Proof. intros H ->. discriminate. Qed.

Lemma entity_head_inj c d a b :
  entity c ++ a = entity d ++ b -> c = d /\ a = b.
Proof.
  destruct (entity_cases c) as [Hc|[Hc Ec]], (entity_cases d) as [Hd|[Hd Ed]].
  - destruct Hc as [->|[->|[->|[->| ->]]]], Hd as [->|[->|[->|[->| ->]]]];
      cbn; intros E; try discriminate E; split; congruence.
  - rewrite Ed. apply is_special_false_amp in Hd.
    destruct Hc as [->|[->|[->|[->| ->]]]]; cbn; intros E;
      injection E as E1 _; exfalso; apply Hd; now rewrite <- E1.
  - rewrite Ec. apply is_special_false_amp in Hc.
    destruct Hd as [->|[->|[->|[->| ->]]]]; cbn; intros E;
      injection E as E1 _; exfalso; apply Hc; now rewrite E1.
  - rewrite Ec, Ed. cbn. intros E. injection E as E1 E2. auto.
Qed.

Lemma escape_entities_inj a : forall b,
  escape_entities a = escape_entities b -> a = b.
Proof.
  unfold escape_entities.
  induction a as [|c a IH]; intros [|d b]; cbn [flat_map]; intros E.
  - reflexivity.
  - exfalso. destruct (entity_cases d) as [Hd|[_ Ed]].
    + destruct Hd as [->|[->|[->|[->| ->]]]]; discriminate E.
    + rewrite Ed in E. discriminate E.
  - exfalso. destruct (entity_cases c) as [Hc|[_ Ec]].
    + destruct Hc as [->|[->|[->|[->| ->]]]]; discriminate E.
    + rewrite Ec in E. discriminate E.
  - apply entity_head_inj in E. destruct E as [-> E]. f_equal. now apply IH.
Qed.

(** X1.  [escapeHtml] loses nothing: two different texts have different
    escaped forms, so a text that already holds an entity is not mistaken
    for the character the entity stands for. *)
Theorem escapeHtml_injective (a b : jsstring) :
  a <> b -> escapeHtml a <> escapeHtml b.
Proof.
  intros Hab E. apply Hab. rewrite !escapeHtml_entities in E.
  now apply escape_entities_inj.
Qed.

Lemma escapeHtml_injective_witness :
  escapeHtml (u "<") <> escapeHtml (u "&lt;").
Proof. apply escapeHtml_injective. discriminate. Defined.

Lemma entity_length c :
  (1 <= List.length (entity c))%nat
  /\ (List.length (entity c) = 1%nat -> is_special c = false).
Proof.
  destruct (entity_cases c) as [Hc|[Hc Ec]].
  - destruct Hc as [->|[->|[->|[->| ->]]]]; cbn; split; (lia || discriminate).
  - rewrite Ec. cbn. split; [lia | auto].
Qed.

Lemma escape_entities_length text :
  (List.length text <= List.length (escape_entities text))%nat
  /\ (List.length (escape_entities text) = List.length text ->
      forallb (fun c => negb (is_special c)) text = true).
Proof.
  unfold escape_entities. induction text as [|c r [IH1 IH2]]; cbn [flat_map forallb].
  - split; [apply le_n | reflexivity].
  - rewrite length_app. cbn [List.length].
    destruct (entity_length c) as [L1 L2]. split; [lia|].
    intros E. rewrite L2, IH2 by lia. reflexivity.
Qed.

Lemma escape_entities_plain text :
  forallb (fun c => negb (is_special c)) text = true ->
  escape_entities text = text.
Proof.
  unfold escape_entities. induction text as [|c r IH]; cbn [flat_map forallb];
    [reflexivity|].
  intros E. apply andb_true_iff in E. destruct E as [Ec Er].
  apply negb_true_iff in Ec.
  destruct (entity_cases c) as [Hc|[_ ->]].
  - destruct Hc as [->|[->|[->|[->| ->]]]]; discriminate Ec.
  - cbn. f_equal. now apply IH.
Qed.

(** X2.  [escapeHtml] never shortens a text, and it returns the text
    unchanged exactly when the text holds none of the five characters
    [&], [<], [>], double quote, single quote. *)
Theorem escapeHtml_unchanged_iff (text : jsstring) :
  (List.length text <= List.length (escapeHtml text))%nat
  /\ (escapeHtml text = text
      <-> forallb (fun c => negb (is_special c)) text = true).
Proof.
  rewrite escapeHtml_entities. split; [apply escape_entities_length|]. split.
  - intros E. apply escape_entities_length. now rewrite E.
  - apply escape_entities_plain.
Qed.

(** X3.  Escaping is done character by character: the escaped form of texts
    joined together is the escaped forms joined together, whatever the
    pieces end and start with. *)
Theorem escapeHtml_concat (pieces : list jsstring) :
  escapeHtml (List.concat pieces) = List.concat (map escapeHtml pieces).
Proof.
  induction pieces as [|p r IH]; [reflexivity|].
  cbn [List.concat map]. now rewrite escapeHtml_app, IH.
Qed.

(** ** addStyledContent *)

Lemma fold_doc_step_app lines : forall body,
  fold_left doc_step lines body = body ++ fold_left doc_step lines [].
Proof.
  induction lines as [|l r IH]; intros body; cbn [fold_left].
  - now rewrite app_nil_r.
  - rewrite IH, (IH (doc_step [] l)), app_assoc. f_equal.
    rewrite !doc_step_classify.
    destruct (classify (trim l)) as [|t|[|] t|t]; cbn [app];
      now rewrite ?app_nil_r.
Qed.

(** The elements one line adds to a document body. *)
Lemma fold_doc_step_cons l r :
  fold_left doc_step (l :: r) [] = doc_step [] l ++ fold_left doc_step r [].
Proof. cbn [fold_left]. apply fold_doc_step_app. Qed.

Lemma doc_step_length l :
  List.length (doc_step [] l)
  = if str_eqb (trim l) [] then 0%nat else 1%nat.
Proof.
  unfold doc_step.
  destruct (str_eqb (trim l) []); [reflexivity|].
  destruct (endsWith (trim l) COLON); [reflexivity|].
  destruct (test_marker (trim l)); [reflexivity|].
  destruct (startsWith (trim l) DASH); reflexivity.
Qed.

(** X4.  [addStyledContent] only appends: the body it is given comes back
    as a prefix of the result, untouched, followed by one element for each
    line of the text that is not blank. *)
Theorem addStyledContent_appends (body : Body) (text : jsstring) :
  addStyledContent body text = body ++ addStyledContent [] text
  /\ List.length (addStyledContent [] text)
     = List.length (filter (fun line => negb (str_eqb (trim line) []))
                      (split_nl text)).
Proof.
  unfold addStyledContent. split; [apply fold_doc_step_app|].
  induction (split_nl text) as [|l r IH]; [reflexivity|].
  rewrite fold_doc_step_cons, length_app, doc_step_length, IH.
  cbn [filter]. destruct (str_eqb (trim l) []); reflexivity.
Qed.

(** ** The texts of the two adapters *)

Lemma block_texts_blocks_of ks :
  flat_map block_texts (blocks_of ks) = flat_map kind_texts ks.
Proof.
  induction ks as [|[|t|k t|t] r IH]; cbn [blocks_of flat_map kind_texts app];
    [reflexivity | exact IH | cbn; now rewrite IH | | cbn; now rewrite IH].
  rewrite <- IH. destruct (next_is_item k r) eqn:E; [|reflexivity].
  destruct (next_is_item_inv _ _ E) as (t' & r' & ->).
  destruct (blocks_of_item_head k t' r') as (items & bs & ->). reflexivity.
Qed.

Lemma doc_step_text l :
  is_ordered_item (classify (trim l)) = false ->
  map element_text (doc_step [] l) = kind_texts (classify (trim l)).
Proof.
  rewrite doc_step_classify.
  destruct (classify (trim l)) as [|t|[|] t|t]; try reflexivity. discriminate.
Qed.

(** X5.  On a text without numbered lines the two adapters carry the same
    texts in the same order: the elements [addStyledContent] appends hold
    exactly the text values of the blocks of the HTML page. *)
Theorem adapters_agree_without_ordered_items (text : jsstring) :
  forallb (fun k => negb (is_ordered_item k)) (kinds text) = true ->
  map element_text (addStyledContent [] text)
  = flat_map block_texts (blocks_of (kinds text)).
Proof.
  rewrite block_texts_blocks_of. unfold addStyledContent, kinds.
  induction (split_nl text) as [|l r IH]; cbn [map forallb flat_map];
    [reflexivity|].
  intros E. apply andb_true_iff in E. destruct E as [El Er].
  apply negb_true_iff in El.
  rewrite fold_doc_step_cons, map_app, doc_step_text, IH by assumption.
  reflexivity.
Qed.

Lemma adapters_agree_without_ordered_items_witness :
  map element_text
      (addStyledContent [] (u "Risks:" ++ [NL] ++ u "- slip" ++ [NL] ++ u "ok"))
  = [u "Risks:"; u "slip"; u "ok"].
Proof.
  rewrite adapters_agree_without_ordered_items; reflexivity.
Defined.

(** ** Newlines *)

Lemma split_nl_no_newline s : forall l, In l (split_nl s) -> ~ In NL l.
Proof.
  induction s as [|c r IH]; cbn [split_nl]; intros l.
  - intros [<-|[]]. intros [].
  - destruct (c =? NL) eqn:E.
    + intros [<-|H]; [intros [] | now apply IH].
    + destruct (split_nl r) as [|l0 ls] eqn:Er.
      * intros [<-|[]]. intros [H|[]]. subst c. now rewrite N.eqb_refl in E.
      * intros [<-|H].
        -- intros [H|H]; [subst c; now rewrite N.eqb_refl in E|].
           apply (IH l0); [now left | exact H].
        -- apply IH. now right.
Qed.

Lemma dropWhile_incl p s x : In x (dropWhile p s) -> In x s.
Proof.
  induction s as [|c r IH]; cbn [dropWhile]; [easy|].
  destruct (p c); [right; now apply IH | easy].
Qed.

Lemma trim_incl s x : In x (trim s) -> In x s.
Proof.
  unfold trim, trimEnd, trimStart. intros H.
  apply in_rev, dropWhile_incl, in_rev, dropWhile_incl in H. exact H.
Qed.

Lemma match_marker_incl s rest x :
  match_marker s = Some rest -> In x rest -> In x s.
Proof.
  unfold match_marker. destruct (takeWhile is_digit s); [discriminate|].
  destruct (dropWhile is_digit s) as [|c r] eqn:E; [discriminate|].
  destruct (c =? DOT); [|discriminate]. intros [= <-] H.
  apply (dropWhile_incl is_digit). rewrite E. now right.
Qed.

Lemma classify_incl line t x :
  In t (kind_texts (classify line)) -> In x t -> In x line.
Proof.
  unfold classify.
  destruct (str_eqb line []); [intros []|].
  destruct (endsWith line COLON); [intros [<-|[]]; auto|].
  destruct (test_marker line).
  { intros [<-|[]]. unfold strip_marker.
    destruct (match_marker line) as [rest|] eqn:E; [|auto].
    intros H. apply dropWhile_incl in H. now apply (match_marker_incl _ _ _ E). }
  destruct (startsWith line DASH).
  { intros [<-|[]] H. apply trim_incl in H. unfold substring1 in H.
    destruct line; [easy | now right]. }
  intros [<-|[]]; auto.
Qed.

Lemma escape_entities_newline t : In NL (escape_entities t) -> In NL t.
Proof.
  unfold escape_entities. rewrite in_flat_map. intros (c & Hc & H).
  destruct (entity_cases c) as [Hs|[_ Ec]].
  - exfalso. destruct Hs as [->|[->|[->|[->| ->]]]]; simpl in H;
      repeat (destruct H as [H|H]; [discriminate H|]); exact H.
  - rewrite Ec in H. destruct H as [<-|[]]. exact Hc.
Qed.

Lemma remove_nl_without_newline s : ~ In NL s -> remove_nl s = s.
Proof.
  unfold remove_nl, replace_char. induction s as [|x r IH]; cbn [flat_map];
    [easy|].
  intros H. destruct (x =? NL) eqn:E.
  - apply N.eqb_eq in E. subst x. exfalso. apply H. now left.
  - cbn. f_equal. apply IH. intros Hr. apply H. now right.
Qed.

(** X6.  No text value of a block holds a newline character, so the removal
    of newlines from the page in [handleHTMLOutput] leaves the escaped text
    of every block as it is. *)
Theorem block_text_without_newline (text : jsstring) (b : Block) (t : jsstring) :
  In b (blocks_of (kinds text)) -> In t (block_texts b) ->
  ~ In NL t /\ remove_nl (escapeHtml t) = escapeHtml t.
Proof.
  intros Hb Ht.
  assert (Hn : ~ In NL t).
  { assert (H : In t (flat_map block_texts (blocks_of (kinds text))))
      by (apply in_flat_map; eauto).
    rewrite block_texts_blocks_of in H. apply in_flat_map in H.
    destruct H as (k & Hk & Hkt). unfold kinds in Hk. apply in_map_iff in Hk.
    destruct Hk as (l & <- & Hl). intros Hx.
    apply (classify_incl _ _ _ Hkt), trim_incl in Hx.
    now apply (split_nl_no_newline text l). }
  split; [exact Hn|]. apply remove_nl_without_newline.
  rewrite escapeHtml_entities. intros H. now apply Hn, escape_entities_newline.
Qed.

Lemma block_text_without_newline_witness :
  remove_nl (escapeHtml (u "R&D")) = escapeHtml (u "R&D").
Proof.
  apply (block_text_without_newline (u "- a" ++ [NL] ++ u "- R&D")
           (ListBlock Unordered [u "a"; u "R&D"]) (u "R&D")).
  - left. reflexivity.
  - right. left. reflexivity.
Defined.

(** ** The handlers, case by case *)

Lemma tryCatch_rethrow {A} (m : M A) (line : jsstring -> jsstring) :
  tryCatch m (fun e => log (line e) ;; throw e)
  = match m with
    | (t, Throw e) => (t ++ [Log (line e)], Throw e)
    | (t, Ret a) => (t, Ret a)
    end.
Proof. destruct m as [t [a|e]]; reflexivity. Qed.

Lemma tryCatch_respond (m : M Response) :
  tryCatch m (fun err => ret (error_response err))
  = (trace m, Ret (as_response (outcome m))).
Proof.
  destruct m as [t [r|e]]; unfold tryCatch, ret, trace, outcome; cbn [fst snd as_response];
    [reflexivity | now rewrite app_nil_r].
Qed.

Lemma handlePDFOutput_cases w agentName advisorText extraContext :
  let m := handlePDFOutput w agentName advisorText extraContext in
  let doc := pdf_document agentName advisorText extraContext in
  let ev1 := DocCreate (agentName ++ u "-Output") in
  let ev2 := DocSaveAndClose doc in
  let ev3 := PdfConvert (agentName ++ u "-Output.pdf") in
  let ev4 := SendEmail (pdf_mail agentName advisorText extraContext) in
  (exists e, m = ([ev1], Throw e))
  \/ (exists e, m = ([ev1; ev2], Throw e))
  \/ (exists e, m = ([ev1; ev2; ev3], Throw e))
  \/ (exists e, m = ([ev1; ev2; ev3; ev4], Throw e))
  \/ (exists l,
        m = ([ev1; ev2; ev3; ev4; SetTrashed; Log l;
              Log (u "PDF report sent successfully for " ++ agentName)],
             Ret (pdf_response agentName extraContext))).
Proof.
  cbv zeta. unfold handlePDFOutput, call, pdf_mail, pdf_response.
  destruct (docCreate w) as [e1|]; [left; now exists e1|].
  destruct (docSave w) as [e2|]; [right; left; now exists e2|].
  destruct (pdfConvert w) as [e3|]; [right; right; left; now exists e3|].
  destruct (mailSend w) as [e4|]; [right; right; right; left; now exists e4|].
  right; right; right; right. destruct (trash w); eexists; reflexivity.
Qed.

Lemma handleEmailOutput_cases w agentName advisorText extraContext :
  let m := handleEmailOutput w agentName advisorText extraContext in
  let ev := SendEmail (html_mail w agentName advisorText extraContext) in
  (exists e, m = ([ev], Throw e))
  \/ m = ([ev; Log (u "HTML email sent successfully for " ++ agentName)],
          Ret (email_response agentName extraContext)).
Proof.
  cbv zeta. rewrite handleEmailOutput_eq. cbv zeta.
  destruct (mailSend w) as [e|]; [left; now exists e | now right].
Qed.

Lemma handlePDFOutput_handled w agentName advisorText extraContext :
  handled agentName (handlePDFOutput w agentName advisorText extraContext).
Proof.
  unfold handled.
  destruct (handlePDFOutput_cases w agentName advisorText extraContext)
    as [(e & ->)|[(e & ->)|[(e & ->)|[(e & ->)|(l & ->)]]]];
    unfold trace, outcome; cbn [fst snd prompts mails flat_map app];
    (split; [reflexivity|]); split;
    try (left; reflexivity); try (intros r [= <-]; reflexivity);
    try discriminate; right; eexists; (split; [reflexivity|]); split; reflexivity.
Qed.

Lemma handleEmailOutput_handled w agentName advisorText extraContext :
  handled agentName (handleEmailOutput w agentName advisorText extraContext).
Proof.
  unfold handled.
  destruct (handleEmailOutput_cases w agentName advisorText extraContext)
    as [(e & ->)| ->];
    unfold trace, outcome; cbn [fst snd prompts mails flat_map app];
    (split; [reflexivity|]); split;
    try (intros r [= <-]; reflexivity); try discriminate;
    right; eexists; (split; [reflexivity|]); split; reflexivity.
Qed.

Lemma handleHTMLOutput_handled w agentName advisorText extraContext :
  handled agentName (handleHTMLOutput w agentName advisorText extraContext).
Proof.
  unfold handled. rewrite handleHTMLOutput_eq.
  unfold trace, outcome; cbn [fst snd prompts mails flat_map app].
  split; [reflexivity|]. split; [now left|]. now intros r [= <-].
Qed.

(** ** generateAndSendOutput, case by case *)

Lemma generateAndSendOutput_unfold w agentName fullPrompt outputFormat extraContext :
  falsy (OPENROUTER_API_KEY w) = false ->
  generateAndSendOutput w agentName fullPrompt outputFormat extraContext
  = match chat_completion w fullPrompt with
    | Throw e =>
        ([PropertyRead; Fetch fullPrompt; Log (error_line agentName e)], Throw e)
    | Ret advisorText =>
        match output_switch w outputFormat agentName advisorText extraContext with
        | (t, Ret r) => (PropertyRead :: Fetch fullPrompt :: t, Ret r)
        | (t, Throw e) =>
            (PropertyRead :: Fetch fullPrompt :: t ++ [Log (error_line agentName e)],
             Throw e)
        end
    end.
Proof.
  intros Hk. unfold generateAndSendOutput. rewrite Hk.
  fold (error_line agentName).
  rewrite (tryCatch_rethrow _ (error_line agentName)).
  destruct (chat_completion w fullPrompt) as [text|e]; [|reflexivity].
  cbn [bind call]. fold (output_switch w outputFormat agentName text extraContext).
  destruct (output_switch w outputFormat agentName text extraContext) as [t [r|e]];
    reflexivity.
Qed.

Lemma output_switch_ret w outputFormat agentName advisorText extraContext r :
  outcome (output_switch w outputFormat agentName advisorText extraContext) = Ret r ->
  (outputFormat = u "PDF" /\ r = pdf_response agentName extraContext)
  \/ (outputFormat = u "EMAIL" /\ r = email_response agentName extraContext)
  \/ (outputFormat = u "HTML"
      /\ r = html_response w agentName advisorText extraContext).
Proof.
  unfold output_switch.
  destruct (str_eqb outputFormat (u "PDF")) eqn:E1.
  { apply str_eqb_eq in E1. intros H. left. split; [exact E1|].
    destruct (handlePDFOutput_cases w agentName advisorText extraContext)
      as [(e & Hm)|[(e & Hm)|[(e & Hm)|[(e & Hm)|(l & Hm)]]]];
      rewrite Hm in H; unfold outcome in H; cbn [snd] in H; congruence. }
  destruct (str_eqb outputFormat (u "EMAIL")) eqn:E2.
  { apply str_eqb_eq in E2. intros H. right. left. split; [exact E2|].
    destruct (handleEmailOutput_cases w agentName advisorText extraContext)
      as [(e & Hm)|Hm];
      rewrite Hm in H; unfold outcome in H; cbn [snd] in H; congruence. }
  destruct (str_eqb outputFormat (u "HTML")) eqn:E3.
  { apply str_eqb_eq in E3. intros H. right. right. split; [exact E3|].
    rewrite handleHTMLOutput_eq in H. unfold outcome in H. cbn [snd] in H.
    unfold html_response. congruence. }
  discriminate.
Qed.

Lemma output_switch_handled w outputFormat agentName advisorText extraContext :
  handled agentName
    (output_switch w outputFormat agentName advisorText extraContext).
Proof.
  unfold output_switch.
  destruct (str_eqb outputFormat (u "PDF")); [apply handlePDFOutput_handled|].
  destruct (str_eqb outputFormat (u "EMAIL")); [apply handleEmailOutput_handled|].
  destruct (str_eqb outputFormat (u "HTML")); [apply handleHTMLOutput_handled|].
  repeat split; [now left | discriminate].
Qed.

Lemma prompts_app a b : prompts (a ++ b) = prompts a ++ prompts b.
Proof. apply flat_map_app. Qed.

Lemma mails_app a b : mails (a ++ b) = mails a ++ mails b.
Proof. apply flat_map_app. Qed.

Lemma generateAndSendOutput_no_key w agentName fullPrompt fmt ctx :
  falsy (OPENROUTER_API_KEY w) = true ->
  generateAndSendOutput w agentName fullPrompt fmt ctx
  = ([PropertyRead], Throw (u "Missing OPENROUTER_API_KEY in Script Properties")).
Proof. intros Hk. unfold generateAndSendOutput. now rewrite Hk. Qed.

(** X8.  With the key present, whatever [generateAndSendOutput] throws (a
    provider failure, a failure of a handler, a format it does not know) is
    logged once, as the last call of the request, and rethrown with the
    same message. *)
Theorem failure_logged_and_rethrown (w : World)
  (agentName fullPrompt outputFormat extraContext e : jsstring) :
  falsy (OPENROUTER_API_KEY w) = false ->
  outcome (generateAndSendOutput w agentName fullPrompt outputFormat extraContext)
  = Throw e ->
  exists before,
    trace (generateAndSendOutput w agentName fullPrompt outputFormat extraContext)
    = before ++ [Log (u "Error for " ++ agentName ++ u ": " ++ e)].
Proof.
  intros Hk. rewrite (generateAndSendOutput_unfold _ _ _ _ _ Hk).
  destruct (chat_completion w fullPrompt) as [text|e0].
  - destruct (output_switch w outputFormat agentName text extraContext)
      as [t [r|e0]]; unfold outcome, trace; cbn [fst snd]; intros [= <-].
    exists (PropertyRead :: Fetch fullPrompt :: t). reflexivity.
  - unfold outcome, trace; cbn [fst snd]. intros [= <-].
    exists [PropertyRead; Fetch fullPrompt]. reflexivity.
Qed.

Lemma failure_logged_and_rethrown_witness :
  exists before,
    trace (generateAndSendOutput
             (sample_world sample_rows None (Some (u "Limit exceeded")) None)
             (u "SA") (u "Advise on:") (u "EMAIL") (u "deadlines"))
    = before ++ [Log (u "Error for SA: Limit exceeded")].
Proof.
  apply (failure_logged_and_rethrown
           (sample_world sample_rows None (Some (u "Limit exceeded")) None)
           (u "SA") (u "Advise on:") (u "EMAIL") (u "deadlines")
           (u "Limit exceeded")); reflexivity.
Defined.

(** X9.  When the provider call fails (the fetch, the parsing of the answer
    or the path to its content throws) the request makes no further call
    but the log line: no document is created and no email is sent. *)
Theorem provider_failure_no_delivery (w : World)
  (agentName fullPrompt outputFormat extraContext e : jsstring) :
  falsy (OPENROUTER_API_KEY w) = false ->
  chat_completion w fullPrompt = Throw e ->
  generateAndSendOutput w agentName fullPrompt outputFormat extraContext
  = ([PropertyRead; Fetch fullPrompt;
      Log (u "Error for " ++ agentName ++ u ": " ++ e)], Throw e).
Proof.
  intros Hk Hc. rewrite (generateAndSendOutput_unfold _ _ _ _ _ Hk), Hc.
  reflexivity.
Qed.

Lemma provider_failure_no_delivery_witness :
  generateAndSendOutput
    (mkWorld (Some sample_rows) (Some (u "sk-test"))
       (fun _ => Throw (u "Unexpected token < in JSON at position 0"))
       [] [] None None None None None)
    (u "SA") (u "Advise on:") (u "PDF") (u "deadlines")
  = ([PropertyRead; Fetch (u "Advise on:");
      Log (u "Error for SA: Unexpected token < in JSON at position 0")],
     Throw (u "Unexpected token < in JSON at position 0")).
Proof.
  exact (provider_failure_no_delivery
           (mkWorld (Some sample_rows) (Some (u "sk-test"))
              (fun _ => Throw (u "Unexpected token < in JSON at position 0"))
              [] [] None None None None None)
           (u "SA") (u "Advise on:") (u "PDF") (u "deadlines")
           (u "Unexpected token < in JSON at position 0") eq_refl eq_refl).
Defined.

(** X10.  A format other than PDF, EMAIL and HTML is refused by
    [generateAndSendOutput] only after the provider has answered: the call
    is made, then "Invalid output format" is thrown and logged. *)
Theorem unknown_format_after_provider_call (w : World)
  (agentName fullPrompt outputFormat extraContext advisorText : jsstring) :
  falsy (OPENROUTER_API_KEY w) = false ->
  chat_completion w fullPrompt = Ret advisorText ->
  includes formats outputFormat = false ->
  generateAndSendOutput w agentName fullPrompt outputFormat extraContext
  = ([PropertyRead; Fetch fullPrompt;
      Log (u "Error for " ++ agentName ++ u ": Invalid output format")],
     Throw (u "Invalid output format")).
Proof.
  intros Hk Hc Hf. rewrite (generateAndSendOutput_unfold _ _ _ _ _ Hk), Hc.
  unfold includes, formats in Hf. cbn [existsb] in Hf.
  apply orb_false_iff in Hf. destruct Hf as [H1 Hf].
  apply orb_false_iff in Hf. destruct Hf as [H2 Hf].
  apply orb_false_iff in Hf. destruct Hf as [H3 _].
  unfold output_switch. now rewrite H1, H2, H3.
Qed.

Lemma unknown_format_after_provider_call_witness :
  generateAndSendOutput (sample_world sample_rows None None None)
    (u "SA") (u "Advise on:") (u "pdf") (u "deadlines")
  = ([PropertyRead; Fetch (u "Advise on:");
      Log (u "Error for SA: Invalid output format")],
     Throw (u "Invalid output format")).
Proof.
  exact (unknown_format_after_provider_call
           (sample_world sample_rows None None None)
           (u "SA") (u "Advise on:") (u "pdf") (u "deadlines") sample_text
           eq_refl eq_refl eq_refl).
Defined.

(** X11.  When sending the HTML email fails, the EMAIL format fails with the
    error of the mail service: the one send is the last call before the log
    line, and no success is logged or returned. *)
Theorem email_delivery_failure (w : World)
  (agentName fullPrompt extraContext advisorText e : jsstring) :
  falsy (OPENROUTER_API_KEY w) = false ->
  chat_completion w fullPrompt = Ret advisorText ->
  mailSend w = Some e ->
  generateAndSendOutput w agentName fullPrompt (u "EMAIL") extraContext
  = ([PropertyRead; Fetch fullPrompt;
      SendEmail (html_mail w agentName advisorText extraContext);
      Log (u "Error for " ++ agentName ++ u ": " ++ e)], Throw e).
Proof.
  intros Hk Hc Hm. rewrite (generateAndSendOutput_unfold _ _ _ _ _ Hk), Hc.
  unfold output_switch.
  change (str_eqb (u "EMAIL") (u "PDF")) with false.
  change (str_eqb (u "EMAIL") (u "EMAIL")) with true. cbv iota.
  rewrite handleEmailOutput_eq, Hm. reflexivity.
Qed.

Lemma email_delivery_failure_witness :
  outcome (generateAndSendOutput
             (sample_world sample_rows None (Some (u "Limit exceeded")) None)
             (u "SA") (u "Advise on:") (u "EMAIL") (u "deadlines"))
  = Throw (u "Limit exceeded").
Proof.
  rewrite (email_delivery_failure
             (sample_world sample_rows None (Some (u "Limit exceeded")) None)
             (u "SA") (u "Advise on:") (u "deadlines") sample_text
             (u "Limit exceeded")); reflexivity.
Defined.

(** ** doGet, case by case *)

Lemma bind_ret {A B} (t : list Event) (a : A) (f : A -> M B) :
  bind (t, Ret a) f = (t ++ trace (f a), outcome (f a)).
Proof. unfold bind, trace, outcome. now destruct (f a). Qed.

Lemma trace_pair {A} (t : list Event) (r : Result A) : trace (t, r) = t.
Proof. reflexivity. Qed.

Lemma outcome_pair {A} (t : list Event) (r : Result A) : outcome (t, r) = r.
Proof. reflexivity. Qed.

Lemma prompts_SheetRead t : prompts (SheetRead :: t) = prompts t.
Proof. reflexivity. Qed.

Lemma mails_SheetRead t : mails (SheetRead :: t) = mails t.
Proof. reflexivity. Qed.

Lemma success_not_error : u "success" <> u "error".
Proof. discriminate. Qed.

Section Requests.

Context `{CaseMapping}.

Lemma runAgent_cases w agentName extraContext outputFormat :
  (exists msg, runAgent w agentName extraContext outputFormat
               = ([SheetRead], Throw msg))
  \/ (exists rows p,
        GTAgents w = Some rows
        /\ lookup_basePrompt rows agentName = Some p /\ p <> []
        /\ runAgent w agentName extraContext outputFormat
           = let g := generateAndSendOutput w agentName
                        (p ++ [NL; NL] ++ extraContext) outputFormat extraContext in
             (SheetRead :: trace g, outcome g)).
Proof.
  unfold runAgent. destruct (GTAgents w) as [rows|]; [|left; eexists; reflexivity].
  rewrite bind_ret.
  destruct (lookup_basePrompt rows agentName) as [p|] eqn:Hl;
    [|left; eexists; reflexivity].
  cbn [falsy]. destruct (str_eqb p []) eqn:Hp; [left; eexists; reflexivity|].
  right. exists rows, p. apply str_eqb_neq in Hp. repeat split; auto.
Qed.

Lemma doGet_cases w e :
  let ctx := or_default (context e) [] in
  let fmt := toUpperCase (or_default (outputFormatParam e) (u "PDF")) in
  (exists msg tr,
      (tr = [] \/ tr = [SheetRead])
      /\ doGet w e = (tr, Ret (error_response msg)))
  \/ (exists name rows p,
        agentname e = Some name /\ name <> []
        /\ includes formats fmt = true
        /\ GTAgents w = Some rows
        /\ lookup_basePrompt rows name = Some p /\ p <> []
        /\ doGet w e
           = let g := generateAndSendOutput w name (p ++ [NL; NL] ++ ctx) fmt ctx in
             (SheetRead :: trace g, Ret (as_response (outcome g)))).
Proof.
  cbv zeta.
  destruct (agentname e) as [name|] eqn:Hn.
  2:{ left. do 2 eexists. split; [left; reflexivity|].
      unfold doGet. rewrite Hn. reflexivity. }
  destruct (str_eqb name []) eqn:Ha.
  { left. do 2 eexists. split; [left; reflexivity|].
    unfold doGet. rewrite Hn. cbn [falsy]. rewrite Ha. reflexivity. }
  destruct (includes formats
              (toUpperCase (or_default (outputFormatParam e) (u "PDF")))) eqn:Hf.
  2:{ left. do 2 eexists. split; [left; reflexivity|].
      unfold doGet. rewrite Hn. cbn [falsy]. rewrite Ha, Hf. reflexivity. }
  apply str_eqb_neq in Ha.
  rewrite (doGet_valid w e name Hn Ha Hf), tryCatch_respond.
  destruct (runAgent_cases w name (or_default (context e) [])
              (toUpperCase (or_default (outputFormatParam e) (u "PDF"))))
    as [(msg & ->)|(rows & p & Hs & Hl & Hp & ->)].
  - left. exists msg, [SheetRead]. split; [now right | reflexivity].
  - right. exists name, rows, p. repeat split; auto.
Qed.

End Requests.

Lemma generateAndSendOutput_facts w agentName fullPrompt fmt ctx :
  let g := generateAndSendOutput w agentName fullPrompt fmt ctx in
  (prompts (trace g) = [] \/ prompts (trace g) = [fullPrompt])
  /\ (mails (trace g) = []
      \/ exists mail, mails (trace g) = [mail]
                      /\ to mail = recipient
                      /\ subject mail = agentName ++ u " - Output")
  /\ (forall r, outcome g = Ret r ->
        prompts (trace g) = [fullPrompt]
        /\ status r = u "success"
        /\ outputFormat r = Some fmt
        /\ extraContext r = Some ctx
        /\ (output r <> None <-> fmt = u "HTML")).
Proof.
  cbv zeta. destruct (falsy (OPENROUTER_API_KEY w)) eqn:Hk.
  { unfold generateAndSendOutput. rewrite Hk.
    unfold trace, outcome; cbn [bind call throw fst snd app prompts mails flat_map].
    repeat split; try (now left); discriminate. }
  rewrite (generateAndSendOutput_unfold _ _ _ _ _ Hk).
  destruct (chat_completion w fullPrompt) as [text|e].
  2:{ unfold trace, outcome; cbn [fst snd app prompts mails flat_map].
      repeat split; try (now left); try (now right); discriminate. }
  pose proof (output_switch_handled w fmt agentName text ctx)
    as (Hp & Hm & _).
  pose proof (output_switch_ret w fmt agentName text ctx) as Hr.
  destruct (output_switch w fmt agentName text ctx) as [t [r|e]];
    unfold trace, outcome in *; cbn [fst snd] in *.
  - change (PropertyRead :: Fetch fullPrompt :: t)
      with ([PropertyRead; Fetch fullPrompt] ++ t).
    rewrite prompts_app, mails_app, Hp. cbn [prompts mails flat_map app].
    split; [now right|]. split; [exact Hm|].
    intros r' [= <-]. split; [reflexivity|].
    destruct (Hr r eq_refl) as [[-> ->]|[[-> ->]|[-> ->]]];
      cbn [pdf_response email_response html_response
           status outputFormat extraContext output];
      repeat split; try reflexivity; try discriminate; try congruence.
  - change (PropertyRead :: Fetch fullPrompt :: t ++ [Log (error_line agentName e)])
      with ([PropertyRead; Fetch fullPrompt] ++ t ++ [Log (error_line agentName e)]).
    rewrite !prompts_app, !mails_app, Hp. cbn [prompts mails flat_map app].
    rewrite app_nil_r.
    split; [now right|]. split; [exact Hm|]. discriminate.
Qed.

Section Responses.

Context `{CaseMapping}.

(** X12.  [doGet] always answers with an object, whatever the services do:
    either a success object, which carries the upper-cased format and the
    context (and an [output] exactly when the format is HTML), or an error
    object, which carries [status] and [message] only, the context
    included in no error answer. *)
Theorem doGet_always_responds (w : World) (e : Request) :
  let ctx := or_default (context e) [] in
  let fmt := toUpperCase (or_default (outputFormatParam e) (u "PDF")) in
  exists r,
    outcome (doGet w e) = Ret r
    /\ ((status r = u "success"
         /\ outputFormat r = Some fmt
         /\ extraContext r = Some ctx
         /\ (output r <> None <-> fmt = u "HTML"))
        \/ (status r = u "error"
            /\ outputFormat r = None /\ output r = None
            /\ extraContext r = None)).
Proof.
  cbv zeta.
  destruct (doGet_cases w e)
    as [(msg & tr & _ & ->)|(name & rows & p & _ & _ & _ & _ & _ & _ & ->)].
  - eexists. split; [reflexivity|]. right. repeat split.
  - cbv zeta. rewrite outcome_pair.
    eexists. split; [reflexivity|].
    pose proof (generateAndSendOutput_facts w name
                  (p ++ [NL; NL] ++ or_default (context e) [])
                  (toUpperCase (or_default (outputFormatParam e) (u "PDF")))
                  (or_default (context e) [])) as (_ & _ & Hr).
    cbv zeta in Hr.
    destruct (outcome (generateAndSendOutput _ _ _ _ _)) as [r|err];
      cbn [as_response].
    + left. destruct (Hr r eq_refl) as (_ & H1 & H2 & H3 & H4). auto.
    + right. repeat split.
Qed.

(** X13.  A request calls the completion provider at most once (there is no
    retry), with the base prompt of the agent, an empty line and the
    context; a success answer is given only after that call. *)
Theorem one_provider_call (w : World) (e : Request) :
  let ctx := or_default (context e) [] in
  (prompts (trace (doGet w e)) = []
   \/ exists name rows p,
        agentname e = Some name /\ GTAgents w = Some rows
        /\ lookup_basePrompt rows name = Some p /\ p <> []
        /\ prompts (trace (doGet w e)) = [p ++ [NL; NL] ++ ctx])
  /\ (forall r, outcome (doGet w e) = Ret r -> status r = u "success" ->
        prompts (trace (doGet w e)) <> []).
Proof.
  cbv zeta.
  destruct (doGet_cases w e)
    as [(msg & tr & Htr & ->)|(name & rows & p & Hn & _ & _ & Hs & Hl & Hp & ->)].
  - rewrite trace_pair, outcome_pair. split.
    + left. destruct Htr as [->| ->]; reflexivity.
    + intros r [= <-]. cbn [error_response status]. intros E.
      now elim success_not_error.
  - cbv zeta. rewrite trace_pair, outcome_pair.
    pose proof (generateAndSendOutput_facts w name
                  (p ++ [NL; NL] ++ or_default (context e) [])
                  (toUpperCase (or_default (outputFormatParam e) (u "PDF")))
                  (or_default (context e) [])) as (Hq & _ & Hr).
    cbv zeta in Hq, Hr.
    rewrite !prompts_SheetRead.
    split.
    + destruct Hq as [Hq|Hq]; [now left|].
      right. exists name, rows, p. auto.
    + intros r.
      destruct (outcome (generateAndSendOutput _ _ _ _ _)) as [r'|err];
        cbn [as_response].
      * intros _ _. destruct (Hr r' eq_refl) as (-> & _). discriminate.
      * intros [= <-]. cbn [error_response status]. intros E.
        now elim success_not_error.
Qed.

(** X14.  A request sends at most one email, and every email goes to the
    one fixed address under the subject made of the agent name as it was
    requested. *)
Theorem one_email_fixed_recipient (w : World) (e : Request) :
  mails (trace (doGet w e)) = []
  \/ exists name mail,
       agentname e = Some name
       /\ mails (trace (doGet w e)) = [mail]
       /\ to mail = u "gauravtalele2025@gmail.com"
       /\ subject mail = name ++ u " - Output".
Proof.
  destruct (doGet_cases w e)
    as [(msg & tr & Htr & ->)|(name & rows & p & Hn & _ & _ & _ & _ & _ & ->)].
  - left. rewrite trace_pair. destruct Htr as [->| ->]; reflexivity.
  - cbv zeta. rewrite trace_pair.
    pose proof (generateAndSendOutput_facts w name
                  (p ++ [NL; NL] ++ or_default (context e) [])
                  (toUpperCase (or_default (outputFormatParam e) (u "PDF")))
                  (or_default (context e) [])) as (_ & Hm & _).
    cbv zeta in Hm.
    rewrite !mails_SheetRead.
    destruct Hm as [Hm|(mail & Hm & Ht & Hsub)]; [now left|].
    right. exists name, mail. auto.
Qed.

End Responses.

Lemma html_format_trace w agentName fullPrompt ctx :
  let g := generateAndSendOutput w agentName fullPrompt (u "HTML") ctx in
  mails (trace g) = [] /\ created (trace g) = []
  /\ (falsy (OPENROUTER_API_KEY w) = false ->
      forall advisorText, chat_completion w fullPrompt = Ret advisorText ->
      outcome g = Ret (html_response w agentName advisorText ctx)).
Proof.
  cbv zeta. destruct (falsy (OPENROUTER_API_KEY w)) eqn:Hk.
  { unfold generateAndSendOutput. rewrite Hk. repeat split. discriminate. }
  rewrite (generateAndSendOutput_unfold _ _ _ _ _ Hk).
  destruct (chat_completion w fullPrompt) as [text|e].
  - unfold output_switch.
    change (str_eqb (u "HTML") (u "PDF")) with false.
    change (str_eqb (u "HTML") (u "EMAIL")) with false.
    change (str_eqb (u "HTML") (u "HTML")) with true. cbv iota.
    rewrite handleHTMLOutput_eq. repeat split. now intros _ t [= <-].
  - repeat split. discriminate.
Qed.

Lemma find_ext {A} (f g : A -> bool) (l : list A) :
  (forall x, f x = g x) -> find f l = find g l.
Proof.
  intros E. induction l as [|a r IH]; [reflexivity|].
  cbn [find]. now rewrite E, IH.
Qed.

Section Lookups.

Context `{CaseMapping}.

(** X15.  For the HTML format nothing leaves the script but the provider
    call: whatever the sheet, the key, the provider and the other services
    answer, and whether the request succeeds or fails, no email is sent and
    no document is created. *)
Theorem html_format_sends_nothing (w : World) (e : Request) :
  toUpperCase (or_default (outputFormatParam e) (u "PDF")) = u "HTML" ->
  mails (trace (doGet w e)) = [] /\ created (trace (doGet w e)) = [].
Proof.
  intros Hf.
  destruct (doGet_cases w e)
    as [(msg & tr & Htr & ->)|(name & rows & p & _ & _ & _ & _ & _ & _ & ->)].
  - rewrite trace_pair. destruct Htr as [->| ->]; split; reflexivity.
  - cbv zeta. rewrite Hf, trace_pair.
    pose proof (html_format_trace w name
                  (p ++ [NL; NL] ++ or_default (context e) [])
                  (or_default (context e) [])) as (Hm & Hc & _).
    cbv zeta in Hm, Hc. split; [exact Hm | exact Hc].
Qed.

(** X16.  When the spreadsheet has no sheet named GTAgents, a request that
    passed the validation is answered with an error object after that one
    read: the provider is not called and nothing is delivered. *)
Theorem missing_sheet (w : World) (e : Request) (name : jsstring) :
  agentname e = Some name -> name <> [] ->
  includes formats
    (toUpperCase (or_default (outputFormatParam e) (u "PDF"))) = true ->
  GTAgents w = None ->
  exists msg, doGet w e = ([SheetRead], Ret (error_response msg)).
Proof.
  intros Hn Hne Hf Hs. rewrite (doGet_valid w e name Hn Hne Hf).
  unfold runAgent. rewrite Hs. eexists. reflexivity.
Qed.

(** X17.  The lookup sees the requested name through [toLowerCase] only:
    two ASCII names that differ in the case of their letters get the same
    base prompt from any sheet. *)
Theorem lookup_ignores_ascii_case (rows : list Row) (a b : jsstring) :
  is_ascii a -> is_ascii b -> map ascii_lower a = map ascii_lower b ->
  lookup_basePrompt rows a = lookup_basePrompt rows b.
Proof.
  intros Ha Hb E. unfold lookup_basePrompt.
  rewrite (find_ext (row_matches a) (row_matches b)); [reflexivity|].
  intros row. unfold row_matches.
  now rewrite (toLowerCase_ascii a Ha), (toLowerCase_ascii b Hb), E.
Qed.

End Lookups.

Lemma html_format_sends_nothing_witness :
  mails (trace (@doGet ascii_case
                  (sample_world sample_rows None (Some (u "Limit exceeded")) None)
                  (mkRequest (Some (u "SA")) (Some (u "deadlines"))
                             (Some (u "html")))))
  = [].
Proof.
  apply (@html_format_sends_nothing ascii_case
           (sample_world sample_rows None (Some (u "Limit exceeded")) None)
           (mkRequest (Some (u "SA")) (Some (u "deadlines")) (Some (u "html")))).
  reflexivity.
Defined.

Lemma missing_sheet_witness :
  exists msg,
    @doGet ascii_case
      (mkWorld None (Some (u "sk-test")) (fun _ => Ret sample_text) [] []
         None None None None None)
      (mkRequest (Some (u "SA")) None None)
    = ([SheetRead], Ret (error_response msg)).
Proof.
  apply (@missing_sheet ascii_case _ _ (u "SA"));
    [reflexivity | discriminate | reflexivity | reflexivity].
Defined.

Lemma lookup_ignores_ascii_case_witness :
  @lookup_basePrompt ascii_case sample_rows (u "sA")
  = @lookup_basePrompt ascii_case sample_rows (u "Sa").
Proof.
  apply (@lookup_ignores_ascii_case ascii_case sample_rows (u "sA") (u "Sa"));
    try reflexivity; apply is_ascii_u; reflexivity.
Defined.

(** ** The page *)

Lemma or_default_nonempty s d : s <> [] -> or_default (Some s) d = s.
Proof.
  intros Hs. unfold or_default. cbn [falsy].
  apply str_eqb_neq in Hs. now rewrite Hs.
Qed.

Lemma or_default_empty_default s : or_default (Some s) [] = s.
Proof.
  unfold or_default. cbn [falsy]. destruct (str_eqb s []) eqn:E; [|reflexivity].
  apply str_eqb_eq in E. now subst s.
Qed.

(** X18.  However a submission ends (no agent chosen, the request failing,
    an error answer, a success answer) the handler leaves the submit button
    enabled and with the text it had when the page was loaded. *)
Theorem submit_restores_button (originalBtnText : jsstring)
  (checked : option jsstring) (contextInput formatSelect : jsstring)
  (server : jsstring -> jsstring -> jsstring -> FetchResult) (p : Panel) :
  let p' := fst (submit originalBtnText checked contextInput formatSelect server p) in
  submitDisabled p' = false /\ submitHTML p' = originalBtnText.
Proof.
  cbv zeta. unfold submit.
  destruct checked as [agent|]; [|split; reflexivity].
  destruct (server agent contextInput formatSelect) as [t|code [r|t]];
    [split; reflexivity | |].
  - destruct (negb (response_ok code)); [split; reflexivity|].
    destruct (str_eqb (status r) (u "success")); split; reflexivity.
  - destruct (negb (response_ok code)); split; reflexivity.
Qed.

(** X19.  Submitting with no agent chosen sends no request: the handler
    alerts and returns.  It has already put the page in its loading state,
    and nothing takes that back: the panel keeps the spinner and the status
    keeps "Thinking...". *)
Theorem submit_without_agent (originalBtnText contextInput formatSelect : jsstring)
  (server : jsstring -> jsstring -> jsstring -> FetchResult) (p : Panel) :
  submit originalBtnText None contextInput formatSelect server p
  = (mkPanel false originalBtnText placeholder (u "Thinking...")
       (filter (fun c => negb (str_eqb c (u "active"))) (statusClasses p)),
     [Alert (u "Please select an agent.")]).
Proof. reflexivity. Qed.

Lemma filter_active_out (l : list jsstring) :
  ~ In (u "active") (filter (fun c => negb (str_eqb c (u "active"))) l).
Proof.
  intros H. apply filter_In in H. destruct H as [_ H].
  now rewrite (proj2 (str_eqb_eq _ _) eq_refl) in H.
Qed.

(** X20.  The handler reports a success exactly when the request resolved
    with a status code from 200 to 299 and an object whose [status] is
    ["success"]: then the status reads "Completed", is marked active, and
    the form is reset.  In every other case the status reads "Error", is
    not marked active, the panel shows the error entry, and the form keeps
    what the user entered. *)
Theorem submit_success_or_error (originalBtnText agent contextInput formatSelect : jsstring)
  (server : jsstring -> jsstring -> jsstring -> FetchResult) (p : Panel) :
  let succeeded :=
    match server agent contextInput formatSelect with
    | HttpResponse code (Ret result) =>
        response_ok code && str_eqb (status result) (u "success")
    | _ => false
    end in
  let r := submit originalBtnText (Some agent) contextInput formatSelect server p in
  if succeeded
  then statusText (fst r) = u "Completed"
       /\ statusClasses (fst r) = [u "status-indicator"; u "active"]
       /\ In FormReset (snd r)
  else statusText (fst r) = u "Error"
       /\ ~ In (u "active") (statusClasses (fst r))
       /\ (exists text, responseHTML (fst r) = error_panel text)
       /\ ~ In FormReset (snd r).
Proof.
  cbv zeta. unfold submit.
  destruct (server agent contextInput formatSelect) as [t|code [r|t]].
  - cbn [on_error setLoading fst snd statusText statusClasses responseHTML
         submitDisabled submitHTML].
    repeat split; [apply filter_active_out | eauto |].
    intros [A|[A|[]]]; discriminate.
  - destruct (response_ok code); cbn [negb andb].
    + destruct (str_eqb (status r) (u "success")).
      * cbn [on_success setLoading fst snd statusText statusClasses].
        repeat split. do 4 right. now left.
      * cbn [on_error setLoading fst snd statusText statusClasses responseHTML
             submitDisabled submitHTML].
        repeat split; [apply filter_active_out | eauto |].
        intros [A|[A|[]]]; discriminate.
    + cbn [on_error setLoading fst snd statusText statusClasses responseHTML
           submitDisabled submitHTML].
      repeat split; [apply filter_active_out | eauto |].
      intros [A|[A|[]]]; discriminate.
  - destruct (response_ok code); cbn [negb andb];
      cbn [on_error setLoading fst snd statusText statusClasses responseHTML
           submitDisabled submitHTML];
      (repeat split; [apply filter_active_out | eauto |]);
      intros [A|[A|[]]]; discriminate.
Qed.

(** ** The page and the web app together *)

Section EndToEnd.

Context `{CaseMapping}.

Lemma runAgent_found w rows agentName p ctx fmt :
  GTAgents w = Some rows ->
  lookup_basePrompt rows agentName = Some p -> p <> [] ->
  runAgent w agentName ctx fmt
  = let g := generateAndSendOutput w agentName (p ++ [NL; NL] ++ ctx) fmt ctx in
    (SheetRead :: trace g, outcome g).
Proof.
  intros Hs Hl Hp. unfold runAgent. rewrite Hs, bind_ret, Hl. cbn [falsy].
  apply str_eqb_neq in Hp. now rewrite Hp.
Qed.

(** X7.  Without the API key (absent or empty) a request for a known agent
    is answered with an error after the sheet and the script properties
    have been read: the provider is not called, nothing is delivered, and,
    unlike every later failure, nothing is logged. *)
Theorem missing_api_key (w : World) (e : Request) (rows : list Row)
  (name p : jsstring) :
  agentname e = Some name -> name <> [] ->
  includes formats
    (toUpperCase (or_default (outputFormatParam e) (u "PDF"))) = true ->
  GTAgents w = Some rows ->
  lookup_basePrompt rows name = Some p -> p <> [] ->
  falsy (OPENROUTER_API_KEY w) = true ->
  doGet w e
  = ([SheetRead; PropertyRead],
     Ret (error_response (u "Missing OPENROUTER_API_KEY in Script Properties"))).
Proof.
  intros Hn Hne Hf Hs Hl Hp Hk.
  rewrite (doGet_valid w e name Hn Hne Hf), tryCatch_respond.
  rewrite (runAgent_found w rows name p _ _ Hs Hl Hp). cbv zeta.
  rewrite (generateAndSendOutput_no_key _ _ _ _ _ Hk). reflexivity.
Qed.

(** X21.  The page and the web app together, HTML format: for a known
    agent, with the key present and an answer from the provider, the panel
    ends up holding the page of [convertMarkdownToHTML] with its newlines
    removed, put there as markup; the status reads "Completed" and the form
    is reset. *)
Theorem panel_shows_html_page (w : World) (rows : list Row)
  (originalBtnText agent contextInput formatSelect basePrompt advisorText : jsstring)
  (p : Panel) :
  agent <> [] ->
  toUpperCase (or_default (Some formatSelect) (u "PDF")) = u "HTML" ->
  GTAgents w = Some rows ->
  lookup_basePrompt rows agent = Some basePrompt -> basePrompt <> [] ->
  falsy (OPENROUTER_API_KEY w) = false ->
  chat_completion w (basePrompt ++ [NL; NL] ++ contextInput) = Ret advisorText ->
  let r := submit originalBtnText (Some agent) contextInput formatSelect
             (deployed w) p in
  fst r
  = mkPanel false originalBtnText
      (remove_nl (convertMarkdownToHTML (clock w) advisorText agent contextInput))
      (u "Completed") [u "status-indicator"; u "active"]
  /\ In FormReset (snd r).
Proof.
  intros Hne Hf Hs Hl Hp Hk Hc.
  assert (E : outcome (doGet w (mkRequest (Some agent) (Some contextInput)
                                  (Some formatSelect)))
              = Ret (html_response w agent advisorText contextInput)).
  { rewrite (doGet_valid w (mkRequest (Some agent) (Some contextInput)
                              (Some formatSelect)) agent eq_refl Hne)
      by (cbn [outputFormatParam]; now rewrite Hf).
    rewrite tryCatch_respond, outcome_pair.
    cbn [context outputFormatParam]. rewrite Hf, or_default_empty_default.
    rewrite (runAgent_found w rows agent basePrompt _ _ Hs Hl Hp). cbv zeta.
    rewrite outcome_pair.
    destruct (html_format_trace w agent (basePrompt ++ [NL; NL] ++ contextInput)
                contextInput) as (_ & _ & Hr).
    now rewrite (Hr Hk advisorText Hc). }
  cbv zeta. unfold submit, deployed. rewrite E.
  split; [reflexivity|]. cbn. do 4 right. now left.
Qed.

(** X22.  The page and the web app together, unknown agent: when no row
    after the header matches the chosen agent, the panel shows the error
    entry with the not-found message of [runAgent], the status reads
    "Error", and the form is not reset. *)
Theorem panel_shows_not_found (w : World) (rows : list Row)
  (originalBtnText agent contextInput formatSelect : jsstring) (p : Panel) :
  agent <> [] ->
  includes formats (toUpperCase (or_default (Some formatSelect) (u "PDF"))) = true ->
  GTAgents w = Some rows ->
  (forall row, In row (tl rows) -> row_matches agent row = false) ->
  let r := submit originalBtnText (Some agent) contextInput formatSelect
             (deployed w) p in
  responseHTML (fst r) = error_panel (not_found agent)
  /\ statusText (fst r) = u "Error"
  /\ snd r = [HttpGet agent contextInput formatSelect;
              ConsoleError (u "Submission Error:") (not_found agent)].
Proof.
  intros Hne Hf Hs Hm.
  assert (E : outcome (doGet w (mkRequest (Some agent) (Some contextInput)
                                  (Some formatSelect)))
              = Ret (error_response (not_found agent))).
  { rewrite (doGet_valid w (mkRequest (Some agent) (Some contextInput)
                              (Some formatSelect)) agent eq_refl Hne Hf).
    rewrite tryCatch_respond, outcome_pair.
    rewrite (runAgent_falsy_prompt w rows agent _ _ Hs).
    - reflexivity.
    - unfold lookup_basePrompt. now rewrite (find_no_match _ _ Hm). }
  assert (Hnf : not_found agent <> []) by discriminate.
  cbv zeta. unfold submit, deployed. rewrite E.
  change (response_ok 200) with true. cbn [negb].
  change (str_eqb (status (error_response (not_found agent))) (u "success"))
    with false.
  cbn [error_response message]. rewrite (or_default_nonempty _ _ Hnf).
  repeat split.
Qed.

End EndToEnd.

Lemma missing_api_key_witness :
  @doGet ascii_case
    (mkWorld (Some sample_rows) (Some []) (fun _ => Ret sample_text)
       [] [] None None None None None)
    (mkRequest (Some (u "sa")) None (Some (u "html")))
  = ([SheetRead; PropertyRead],
     Ret (error_response (u "Missing OPENROUTER_API_KEY in Script Properties"))).
Proof.
  apply (@missing_api_key ascii_case _ _ sample_rows (u "sa") (u "Advise on:"));
    try reflexivity; discriminate.
Defined.

Lemma panel_shows_html_page_witness :
  responseHTML
    (fst (submit (u "Dispatch") (Some (u "SA")) (u "deadlines") (u "HTML")
            (@deployed ascii_case (sample_world sample_rows None None None))
            (mkPanel false (u "Dispatch") [] (u "Ready") [u "status-indicator"])))
  = remove_nl (convertMarkdownToHTML (u "1/1/2026, 9:00:00 AM") sample_text
                 (u "SA") (u "deadlines")).
Proof.
  pose proof (@panel_shows_html_page ascii_case
                (sample_world sample_rows None None None) sample_rows
                (u "Dispatch") (u "SA") (u "deadlines") (u "HTML")
                (u "Advise on:") sample_text
                (mkPanel false (u "Dispatch") [] (u "Ready") [u "status-indicator"]))
    as T.
  cbv zeta in T.
  destruct T as [T _];
    [discriminate | reflexivity | reflexivity | reflexivity | discriminate
    | reflexivity | reflexivity |].
  rewrite T. reflexivity.
Defined.

Lemma panel_shows_not_found_witness :
  responseHTML
    (fst (submit (u "Dispatch") (Some (u "XX")) (u "deadlines") (u "PDF")
            (@deployed ascii_case (sample_world sample_rows None None None))
            (mkPanel false (u "Dispatch") [] (u "Ready") [u "status-indicator"])))
  = error_panel (not_found (u "XX")).
Proof.
  apply (@panel_shows_not_found ascii_case
           (sample_world sample_rows None None None) sample_rows
           (u "Dispatch") (u "XX") (u "deadlines") (u "PDF")
           (mkPanel false (u "Dispatch") [] (u "Ready") [u "status-indicator"]));
    [discriminate | reflexivity | reflexivity |].
  intros row [<-|[]]. reflexivity.
Defined.

(** ** Success and delivery *)

Lemma output_switch_delivered w fmt agentName advisorText ctx r :
  outcome (output_switch w fmt agentName advisorText ctx) = Ret r ->
  let t := trace (output_switch w fmt agentName advisorText ctx) in
  (fmt = u "PDF" /\ mails t = [pdf_mail agentName advisorText ctx])
  \/ (fmt = u "EMAIL" /\ mails t = [html_mail w agentName advisorText ctx])
  \/ (fmt = u "HTML" /\ mails t = []
      /\ r = html_response w agentName advisorText ctx).
Proof.
  cbv zeta. unfold output_switch.
  destruct (str_eqb fmt (u "PDF")) eqn:E1.
  { apply str_eqb_eq in E1. intros Hr. left. split; [exact E1|].
    destruct (handlePDFOutput_cases w agentName advisorText ctx)
      as [(e & Hm)|[(e & Hm)|[(e & Hm)|[(e & Hm)|(l & Hm)]]]];
      rewrite Hm in *; rewrite outcome_pair in Hr; try discriminate Hr.
    reflexivity. }
  destruct (str_eqb fmt (u "EMAIL")) eqn:E2.
  { apply str_eqb_eq in E2. intros Hr. right. left. split; [exact E2|].
    destruct (handleEmailOutput_cases w agentName advisorText ctx)
      as [(e & Hm)|Hm];
      rewrite Hm in *; rewrite outcome_pair in Hr; try discriminate Hr.
    reflexivity. }
  destruct (str_eqb fmt (u "HTML")) eqn:E3; [|discriminate].
  apply str_eqb_eq in E3. rewrite handleHTMLOutput_eq, outcome_pair.
  intros [= <-]. right. right. repeat split. exact E3.
Qed.

Lemma generateAndSendOutput_ret w agentName fullPrompt fmt ctx r :
  outcome (generateAndSendOutput w agentName fullPrompt fmt ctx) = Ret r ->
  exists advisorText,
    chat_completion w fullPrompt = Ret advisorText
    /\ outcome (output_switch w fmt agentName advisorText ctx) = Ret r
    /\ trace (generateAndSendOutput w agentName fullPrompt fmt ctx)
       = PropertyRead :: Fetch fullPrompt
         :: trace (output_switch w fmt agentName advisorText ctx).
Proof.
  destruct (falsy (OPENROUTER_API_KEY w)) eqn:Hk.
  { rewrite (generateAndSendOutput_no_key _ _ _ _ _ Hk). discriminate. }
  rewrite (generateAndSendOutput_unfold _ _ _ _ _ Hk).
  destruct (chat_completion w fullPrompt) as [text|e];
    [|rewrite outcome_pair; discriminate].
  destruct (output_switch w fmt agentName text ctx) as [t [r'|e]] eqn:Eo;
    rewrite !outcome_pair, ?trace_pair; [|discriminate].
  intros [= <-]. exists text. rewrite Eo. repeat split.
Qed.

Section Delivery.

Context `{CaseMapping}.

(** X23.  A success answer means the work was done: the provider answered
    the one call, and for the PDF format exactly one email with the PDF of
    the composed document attached was sent, for the EMAIL format exactly
    one email with the page as its HTML body, for the HTML format no email
    but the page, its newlines removed, in the answer itself. *)
Theorem success_means_delivered (w : World) (e : Request) (r : Response) :
  outcome (doGet w e) = Ret r -> status r = u "success" ->
  let ctx := or_default (context e) [] in
  let fmt := toUpperCase (or_default (outputFormatParam e) (u "PDF")) in
  exists name fullPrompt advisorText,
    agentname e = Some name
    /\ prompts (trace (doGet w e)) = [fullPrompt]
    /\ chat_completion w fullPrompt = Ret advisorText
    /\ ((fmt = u "PDF"
         /\ mails (trace (doGet w e)) = [pdf_mail name advisorText ctx])
        \/ (fmt = u "EMAIL"
            /\ mails (trace (doGet w e)) = [html_mail w name advisorText ctx])
        \/ (fmt = u "HTML"
            /\ mails (trace (doGet w e)) = []
            /\ output r
               = Some (remove_nl (convertMarkdownToHTML (clock w) advisorText
                                    name ctx)))).
Proof.
  cbv zeta.
  destruct (doGet_cases w e)
    as [(msg & tr & _ & ->)|(name & rows & p & Hn & _ & _ & _ & _ & _ & ->)].
  { rewrite outcome_pair. intros [= <-]. cbn [error_response status].
    intros E. now elim success_not_error. }
  cbv zeta. rewrite outcome_pair, trace_pair.
  set (ctx := or_default (context e) []).
  set (fmt := toUpperCase (or_default (outputFormatParam e) (u "PDF"))).
  set (q := p ++ [NL; NL] ++ ctx).
  destruct (outcome (generateAndSendOutput w name q fmt ctx)) as [r'|err] eqn:Ho;
    cbn [as_response]; intros [= <-].
  2:{ cbn [error_response status]. intros E. now elim success_not_error. }
  intros _.
  destruct (generateAndSendOutput_ret _ _ _ _ _ _ Ho) as (text & Hc & Hr & Ht).
  pose proof (output_switch_handled w fmt name text ctx) as (Hp & _).
  exists name, q, text. split; [exact Hn|].
  rewrite prompts_SheetRead, mails_SheetRead, Ht.
  change (PropertyRead :: Fetch q :: ?t) with ([PropertyRead; Fetch q] ++ t).
  rewrite prompts_app, mails_app, Hp.
  split; [reflexivity|]. split; [exact Hc|].
  change (mails [PropertyRead; Fetch q]) with (@nil Mail). cbn [app].
  destruct (output_switch_delivered w fmt name text ctx r' Hr)
    as [[Hf Hm]|[[Hf Hm]|(Hf & Hm & ->)]]; auto.
Qed.

End Delivery.

Lemma success_means_delivered_witness :
  exists name fullPrompt advisorText,
    Some (u "SA") = Some name
    /\ prompts (trace (@doGet ascii_case (sample_world sample_rows None None None)
                         (mkRequest (Some (u "SA")) (Some (u "deadlines"))
                                    (Some (u "email")))))
       = [fullPrompt]
    /\ sample_text = advisorText
    /\ mails (trace (@doGet ascii_case (sample_world sample_rows None None None)
                       (mkRequest (Some (u "SA")) (Some (u "deadlines"))
                                  (Some (u "email")))))
       = [html_mail (sample_world sample_rows None None None)
            name advisorText (u "deadlines")].
Proof.
  destruct (@success_means_delivered ascii_case
              (sample_world sample_rows None None None)
              (mkRequest (Some (u "SA")) (Some (u "deadlines")) (Some (u "email")))
              (email_response (u "SA") (u "deadlines")) eq_refl eq_refl)
    as (name & q & text & Hn & Hp & Hc & Hd).
  exists name, q, text. cbn [agentname] in Hn. split; [exact Hn|].
  split; [exact Hp|]. cbn in Hc. injection Hc as Hc. split; [exact Hc|].
  destruct Hd as [[Hf _]|[[_ Hm]|(Hf & _)]];
    [discriminate Hf | exact Hm | discriminate Hf].
Defined.

(** ** Lines and blocks *)


